(** * PDF_DL_Website_App: a shallow embedding of the scraper and the downloader

    The program (PDF_DL_Website_App.py) has three functions:
    [download_pdf], [scrape_pdf_links] and [main].  They are glue around
    two outside collaborators, an HTTP client and a browser driver, so the
    embedding is a small state-and-exception monad over a [World] (an
    event trace and a file system), and the collaborators are oracles
    collected in an environment record. *)

From Stdlib Require Import ZArith Ascii String List.
From Stdlib.Strings Require Import Byte.
From stdpp Require Import base option list list_numbers gmap strings.

Local Open Scope Z_scope.

(** ** Python strings

    An href is the [href] property a browser reports for an anchor: a
    serialised URL, which is ASCII.  A [str] is modelled as Rocq's
    [string]; [lower] maps the letters A-Z to a-z and leaves every other
    character as it is. *)

Module PyStr.

Definition lower_char (c : ascii) : ascii :=
  let n := nat_of_ascii c in
  if ((65 <=? n)%nat && (n <=? 90)%nat)%bool then ascii_of_nat (n + 32) else c.

Fixpoint lower (s : string) : string :=
  match s with
  | EmptyString => EmptyString
  | String c s' => String (lower_char c) (lower s')
  end.

(** [startswith p s]: [p] is a prefix of [s]. *)
Fixpoint startswith (p s : string) : bool :=
  match p, s with
  | EmptyString, _ => true
  | String _ _, EmptyString => false
  | String a p', String b s' => if Ascii.eqb a b then startswith p' s' else false
  end.

(** [contains needle hay] is Python's [needle in hay] on two strings. *)
Fixpoint contains (needle hay : string) : bool :=
  (startswith needle hay ||
   match hay with
   | EmptyString => false
   | String _ hay' => contains needle hay'
   end)%bool.

(** [split sep s] is [s.split(sep)] for a one-character separator: the
    list is never empty, and an empty field is kept. *)
Fixpoint split (sep : ascii) (s : string) : list string :=
  match s with
  | EmptyString => [EmptyString]
  | String c s' =>
      if Ascii.eqb c sep then EmptyString :: split sep s'
      else match split sep s' with
           | [] => [String c EmptyString]
           | f :: fs => String c f :: fs
           end
  end.

(** Truth value of a string: only the empty string is false. *)
Definition truthy (s : string) : bool :=
  match s with EmptyString => false | _ => true end.

End PyStr.

(** ** Exceptions, events and the world *)

(** The exceptions the collaborators can raise.  [KeyboardInterrupt] and
    [SystemExit] derive from [BaseException] only; every other one derives
    from [Exception]. *)
Inductive exn : Type :=
| RequestException (msg : string)
| OSError (msg : string)
| WebDriverException (msg : string)
| TimeoutException (msg : string)
| IndexError
| EOFError
| KeyboardInterrupt
| SystemExit.

Definition isinstance_Exception (e : exn) : bool :=
  match e with
  | KeyboardInterrupt | SystemExit => false
  | _ => true
  end.

Inductive Result (A : Type) : Type :=
| Returned (a : A)
| Raised (e : exn).
Arguments Returned {A} a.
Arguments Raised {A} e.

Abbreviation bytes := (list byte).

(** [requests.get(pdf_url, headers=headers, stream=True)]. *)
Record Request : Type := {
  req_url : string;
  req_user_agent : string;
  req_stream : bool
}.

(** What [download_pdf] reads of a response: the status code, and the
    chunks [iter_content(chunk_size)] yields, followed by the exception
    that ends the stream early, if any. *)
Record Response : Type := {
  status_code : Z;
  iter_content : Z -> list bytes * option exn
}.

(** An anchor element, as the outcome of [get_attribute('href')]:
    [None] when the attribute is absent. *)
Definition WebElement : Type := Result (option string).

(** The lines the program prints, one constructor per [print]. *)
Inductive line : Type :=
| LDownloaded (save_path : string)
| LForbidden (pdf_url : string) (attempt_plus_1 retries : Z)
| LFailedStatus (status : Z)
| LError (e : exn)
| LFoundHref (href : string)
| LValidPdf (href : string)
| LFoundHeader
| LLink (pdf : string)
| LNoLinks.

(** The observable actions, in program order.  [EGet], [EOpen], [EWrite],
    [ENavigate], [EWait] and [EFindElements] record that the call was
    made, whatever its outcome; [ELaunch] records that a browser instance
    was created. *)
Inductive event : Type :=
| EGet (r : Request)
| ESleep (seconds : Z)
| EOpen (path : string)
| EWrite (path : string) (chunk : bytes)
| EClose (path : string)
| EPrint (l : line)
| ELaunch (arguments : list string)
| ENavigate (url : string)
| EWait (timeout : Z)
| EFindElements
| EQuit
| EInput (prompt : string).

Record World : Type := {
  trace : list event;
  fs : gmap string bytes
}.

(** The collaborators.  The transport answers by call number (as a mock
    with a list of side effects does) and request; the disk may refuse to
    open or to write; the browser may fail at each step.

    [handler_print e] is what the [print] of the [except] clause of
    [download_pdf] raises when it prints the error [e], if anything (a
    console that cannot take the line).  It is the one [print] of
    [download_pdf] outside the [try]: an error of a [print] inside the
    [try] would be caught by the clause like any other, and those prints
    are taken to succeed.

    [chrome] is the outcome of [webdriver.Chrome(...)]; what installing
    and starting the driver does on the way (it may fetch and cache the
    driver binary) and how the wait polls are the driver's business and
    are not in the world of this model. *)
Record Env : Type := {
  requests_get : nat -> Request -> Result Response;
  open_wb : string -> option exn;
  file_write : string -> bytes -> bytes -> option exn;
  handler_print : exn -> option exn;
  chrome : option exn;
  driver_get : string -> option exn;
  wait_until : option exn;
  find_elements : Result (list WebElement);
  console_input : Result string;
  os_path_join : string -> string -> string
}.

Definition gets_of (tr : list event) : list Request :=
  omap (fun ev => match ev with EGet r => Some r | _ => None end) tr.

Definition sleeps_of (tr : list event) : list Z :=
  omap (fun ev => match ev with ESleep s => Some s | _ => None end) tr.

(** The number of transport calls made so far. *)
Definition calls (w : World) : nat := length (gets_of (trace w)).

Definition is_file_event (ev : event) : bool :=
  match ev with
  | EOpen _ | EWrite _ _ | EClose _ => true
  | _ => false
  end.

Definition file_events_of (tr : list event) : list event :=
  List.filter is_file_event tr.

Definition launches_of (tr : list event) : nat :=
  length (List.filter (fun ev => match ev with ELaunch _ => true | _ => false end) tr).

Definition quits_of (tr : list event) : nat :=
  length (List.filter (fun ev => match ev with EQuit => true | _ => false end) tr).

(** ** The monad: state passing over [World], with exceptions *)

Definition M (A : Type) : Type := World -> Result A * World.

Definition ret {A} (a : A) : M A := fun w => (Returned a, w).

Definition bind {A B} (m : M A) (k : A -> M B) : M B :=
  fun w =>
    match m w with
    | (Returned a, w') => k a w'
    | (Raised e, w') => (Raised e, w')
    end.

Definition raise {A} (e : exn) : M A := fun w => (Raised e, w).

#[global] Instance M_ret : MRet M := @ret.
#[global] Instance M_bind : MBind M := fun A B k m => bind m k.

Definition lift_result {A} (r : Result A) : M A := fun w => (r, w).

Definition lift_outcome (o : option exn) : M unit :=
  match o with
  | None => ret tt
  | Some e => raise e
  end.

Definition emit (ev : event) : M unit :=
  fun w => (Returned tt, {| trace := (trace w ++ [ev])%list; fs := fs w |}).

Definition set_file (path : string) (content : bytes) : M unit :=
  fun w => (Returned tt, {| trace := trace w; fs := <[path := content]> (fs w) |}).

(** [try: body  except Exception as e: handler e]. *)
Definition try_except_Exception {A} (body : M A) (handler : exn -> M A) : M A :=
  fun w =>
    match body w with
    | (Returned a, w') => (Returned a, w')
    | (Raised e, w') =>
        if isinstance_Exception e then handler e w' else (Raised e, w')
    end.

(** [try: body  finally: cleanup]: the cleanup runs on every exit of the
    body; an exception of the cleanup replaces the body's outcome. *)
Definition try_finally {A} (body : M A) (cleanup : M unit) : M A :=
  fun w =>
    match body w with
    | (r, w') =>
        match cleanup w' with
        | (Returned _, w'') => (r, w'')
        | (Raised e, w'') => (Raised e, w'')
        end
    end.

(** How a loop body ends: it falls through to the next iteration,
    [break]s out of the loop, or [return]s from the function. *)
Inductive ctl : Type := Next | Break | Return.

(** [for x in l: body x], for a body that may [break] or [return]. *)
Fixpoint for_ctl {A} (body : A -> M ctl) (l : list A) : M ctl :=
  match l with
  | [] => mret Next
  | x :: l' =>
      c ← body x;
      match c with
      | Next => for_ctl body l'
      | Break => mret Break
      | Return => mret Return
      end
  end.

(** [for x in l: body x], for a body that updates a local variable. *)
Fixpoint for_acc {A S} (body : A -> S -> M S) (l : list A) (s : S) : M S :=
  match l with
  | [] => mret s
  | x :: l' => s' ← body x s; for_acc body l' s'
  end.

(** [range(n)]: empty when [n <= 0]. *)
Definition range (n : Z) : list Z := seqZ 0 n.

(** ** The program *)

Section Program.

Context (env : Env).

(** *** download_pdf *)

Definition user_agent : string :=
  "Mozilla/5.0 (Windows NT 10.0; Win64; x64) AppleWebKit/537.36 (KHTML, like Gecko) Chrome/91.0.4472.124 Safari/537.36".

Definition pdf_request (pdf_url : string) : Request :=
  {| req_url := pdf_url; req_user_agent := user_agent; req_stream := true |}.

(** [requests.get]: the call is recorded, then the transport answers the
    call by its number. *)
Definition get (r : Request) : M Response :=
  fun w => (emit (EGet r);; lift_result (requests_get env (calls w) r)) w.

(** [open(save_path, 'wb')]: creates or truncates the file. *)
Definition open_file (path : string) : M unit :=
  emit (EOpen path);; lift_outcome (open_wb env path);; set_file path [].

(** [pdf_file.write(chunk)]: appends to the file. *)
Definition write (path : string) (chunk : bytes) : M unit :=
  fun w =>
    let current := default [] (fs w !! path) in
    (emit (EWrite path chunk);;
     lift_outcome (file_write env path current chunk);;
     set_file path (current ++ chunk)%list) w.

Definition close (path : string) : M unit := emit (EClose path).

(** [for chunk in ...: if chunk: pdf_file.write(chunk)] over the chunks
    the stream yields. *)
Fixpoint write_chunks (path : string) (chunks : list bytes) : M unit :=
  match chunks with
  | [] => mret tt
  | chunk :: chunks' =>
      (match chunk with
       | [] => mret tt
       | _ :: _ => write path chunk
       end);;
      write_chunks path chunks'
  end.

(** The whole [for] over [response.iter_content(chunk_size=1024)]: the
    chunks, then the exception that ends the stream, if any. *)
Definition write_stream (path : string) (stream : list bytes * option exn) : M unit :=
  write_chunks path (fst stream);; lift_outcome (snd stream).

(** [with open(save_path, 'wb') as pdf_file: ...] *)
Definition save_body (save_path : string) (response : Response) : M unit :=
  open_file save_path;;
  try_finally (write_stream save_path (iter_content response 1024)) (close save_path).

(** One iteration of [for attempt in range(retries)]. *)
Definition attempt_body (pdf_url save_path : string) (retries attempt : Z) : M ctl :=
  response ← get (pdf_request pdf_url);
  if status_code response =? 200 then
    save_body save_path response;;
    emit (EPrint (LDownloaded save_path));;
    mret Return
  else if status_code response =? 403 then
    emit (EPrint (LForbidden pdf_url (attempt + 1) retries));;
    emit (ESleep 2);;
    mret Next
  else
    emit (EPrint (LFailedStatus (status_code response)));;
    mret Break.

(** The body of the [try]: the loop over the attempts. *)
Definition download_attempts (pdf_url save_path : string) (retries : Z) : M ctl :=
  for_ctl (attempt_body pdf_url save_path retries) (range retries).

(** The [print] of the [except] clause: it may raise, and prints the
    line when it does not. *)
Definition print_error (e : exn) : M unit :=
  lift_outcome (handler_print env e);; emit (EPrint (LError e)).

Definition download_pdf (pdf_url save_path : string) (retries : Z) : M unit :=
  try_except_Exception
    (download_attempts pdf_url save_path retries;; mret tt)
    print_error.

Definition default_retries : Z := 3.

(** *** scrape_pdf_links *)

Definition chrome_options : list string :=
  ["--no-sandbox"; "--disable-dev-shm-usage"; "--disable-gpu"; "--headless"].

(** The two substring tests of the filter. *)
Definition is_pdf_link (href : string) : bool :=
  (PyStr.contains ".pdf" (PyStr.lower href) &&
   negb (PyStr.contains "consumereports.org" href))%bool.

(** One iteration of [for link in driver.find_elements(...)]; [if href:]
    is false for [None] and for the empty string. *)
Definition link_body (link : WebElement) (pdf_links : list string) : M (list string) :=
  href ← lift_result link;
  match href with
  | None => mret pdf_links
  | Some href =>
      if PyStr.truthy href then
        emit (EPrint (LFoundHref href));;
        if is_pdf_link href then
          emit (EPrint (LValidPdf href));;
          mret (pdf_links ++ [href])%list
        else mret pdf_links
      else mret pdf_links
  end.

(** [driver.quit()]; the Chrome driver's [quit] swallows its own errors. *)
Definition quit : M unit := emit EQuit.

(** The body of the [try] of [scrape_pdf_links]. *)
Definition scrape_body (url_to_scrape : string) : M (list string) :=
  emit (ENavigate url_to_scrape);;
  lift_outcome (driver_get env url_to_scrape);;
  emit (EWait 10);;
  lift_outcome (wait_until env);;
  emit EFindElements;;
  links ← lift_result (find_elements env);
  pdf_links ← for_acc link_body links [];
  emit (EPrint LFoundHeader);;
  for_acc (fun pdf (_ : unit) => emit (EPrint (LLink pdf))) pdf_links tt;;
  mret pdf_links.

Definition scrape_pdf_links (url_to_scrape : string) : M (list string) :=
  lift_outcome (chrome env);;
  emit (ELaunch chrome_options);;
  try_finally (scrape_body url_to_scrape) quit.

(** *** main *)

Definition save_dir : string := "C:\Users\Cruci\source\repos\PDF_DL_Website_App".

(** [l[-1]]. *)
Definition last_item (l : list string) : M string :=
  match last l with
  | Some x => mret x
  | None => raise IndexError
  end.

(** One iteration of [for pdf_url in pdf_links]. *)
Definition download_link (pdf_url : string) (_ : unit) : M unit :=
  segment ← last_item (PyStr.split "/" pdf_url);
  let pdf_name := os_path_join env save_dir segment in
  download_pdf pdf_url pdf_name default_retries.

Definition main : M unit :=
  emit (EInput "Enter the URL to scrape PDF links from: ");;
  url_to_scrape ← lift_result (console_input env);
  pdf_links ← scrape_pdf_links url_to_scrape;
  match pdf_links with
  | _ :: _ => for_acc download_link pdf_links tt
  | [] => emit (EPrint LNoLinks)
  end.

End Program.

(** ** Vocabulary of the statements *)

(** [Substring n s]: [n] occurs in [s]. *)
Definition Substring (n s : string) : Prop :=
  exists a b, s = a +:+ n +:+ b.

(** [sep.join(fields)], the inverse of [split]. *)
Fixpoint join (sep : ascii) (fields : list string) : string :=
  match fields with
  | [] => EmptyString
  | [f] => f
  | f :: fields' => f +:+ String sep (join sep fields')
  end.

(** [FinalSegment seg url]: [seg] is what follows the last ['/'] of [url],
    or all of [url] when it has none. *)
Definition FinalSegment (seg url : string) : Prop :=
  ~ Substring "/" seg /\ (url = seg \/ exists p, url = p +:+ "/" +:+ seg).

(** The outcome of [download_pdf] from the outcome of its [try] body:
    what the [except Exception] clause makes of it. *)
Definition settle (env : Env) (outcome : Result ctl * World) : Result unit * World :=
  match outcome with
  | (Returned _, w') => (Returned tt, w')
  | (Raised e, w') =>
      if isinstance_Exception e
      then match handler_print env e with
           | None =>
               (Returned tt, {| trace := trace w' ++ [EPrint (LError e)]; fs := fs w' |})
           | Some e' => (Raised e', w')
           end
      else (Raised e, w')
  end.

(** The world [w] after the events [evs]. *)
Definition extend (w : World) (evs : list event) : World :=
  {| trace := trace w ++ evs; fs := fs w |}.

Definition nonempty (chunk : bytes) : bool :=
  match chunk with [] => false | _ :: _ => true end.

(** The file events of a body saved without a failure. *)
Definition save_events (path : string) (chunks : list bytes) : list event :=
  EOpen path :: map (EWrite path) (List.filter nonempty chunks) ++ [EClose path].

(** A disk that lets [path] be opened and written. *)
Definition disk_ok (env : Env) (path : string) : Prop :=
  open_wb env path = None /\ forall current chunk, file_write env path current chunk = None.

(** The hrefs that pass [if href:]: present and not empty. *)
Definition present_hrefs (values : list (option string)) : list string :=
  omap (fun v => match v with
                 | Some h => if PyStr.truthy h then Some h else None
                 | None => None
                 end) values.

(** What the scraper prints for the hrefs that pass [if href:]. *)
Definition href_lines (hrefs : list string) : list event :=
  flat_map (fun h => EPrint (LFoundHref h)
                       :: (if is_pdf_link h then [EPrint (LValidPdf h)] else []))
           hrefs.

(** The events of the [try] body of the scraper on a page that loads,
    for the hrefs that pass [if href:]. *)
Definition scrape_events (url : string) (hrefs : list string) : list event :=
  [ENavigate url; EWait 10; EFindElements]
  ++ href_lines hrefs
  ++ [EPrint LFoundHeader]
  ++ map (fun pdf => EPrint (LLink pdf)) (List.filter is_pdf_link hrefs).

Definition is_browser_event (ev : event) : bool :=
  match ev with
  | ELaunch _ | EQuit => true
  | _ => false
  end.

(** The loop of [main] over the links, as a relation: each link is
    downloaded in turn under the name made of [save_dir] and its final
    segment; an exception that [download_pdf] lets through ends the run. *)
Inductive Downloads (env : Env) : list string -> World -> Result unit -> World -> Prop :=
| Downloads_nil w :
    Downloads env [] w (Returned tt) w
| Downloads_cons pdf_url seg rest w w1 r w2 :
    FinalSegment seg pdf_url ->
    download_pdf env pdf_url (os_path_join env save_dir seg) default_retries w
      = (Returned tt, w1) ->
    Downloads env rest w1 r w2 ->
    Downloads env (pdf_url :: rest) w r w2
| Downloads_stop pdf_url seg rest w e w1 :
    FinalSegment seg pdf_url ->
    download_pdf env pdf_url (os_path_join env save_dir seg) default_retries w
      = (Raised e, w1) ->
    Downloads env (pdf_url :: rest) w (Raised e) w1.

(** The transport calls of a run of downloads: for each link in turn,
    between one and three calls for that link. *)
Inductive InOrder : list string -> list Request -> Prop :=
| InOrder_nil : InOrder [] []
| InOrder_cons pdf_url rest k requests :
    (1 <= k <= 3)%nat ->
    InOrder rest requests ->
    InOrder (pdf_url :: rest) (replicate k (pdf_request pdf_url) ++ requests).

(** ** Sample environments, as a test would mock them *)

Module Sample.

Definition body : list bytes := [[x25; x50; x44; x46]; []; [x0a]].

Definition response (status : Z) : Response :=
  {| status_code := status; iter_content := fun _ => (body, None) |}.

(** A transport that answers the successive calls with [statuses], and
    raises once they are used up. *)
Definition scripted (statuses : list Z) (n : nat) (_ : Request) : Result Response :=
  match statuses !! n with
  | Some status => Returned (response status)
  | None => Raised (RequestException "no more responses")
  end.

Definition anchors : list (option string) :=
  [Some "http://a.example/Report.PDF"; None; Some "";
   Some "https://consumereports.org/x.pdf"; Some "http://a.example/index.html";
   Some "files/b.pdf?v=2"].

Definition env_with (transport : nat -> Request -> Result Response)
    (navigation waiting : option exn) (values : list (option string)) : Env :=
  {| requests_get := transport;
     open_wb := fun _ => None;
     file_write := fun _ _ _ => None;
     handler_print := fun _ => None;
     chrome := None;
     driver_get := fun _ => navigation;
     wait_until := waiting;
     find_elements := Returned (map Returned values);
     console_input := Returned "http://a.example/";
     os_path_join := fun dir name => dir +:+ "\" +:+ name |}.

Definition env (transport : nat -> Request -> Result Response)
    (navigation waiting : option exn) : Env :=
  env_with transport navigation waiting anchors.

(** A page whose anchors have the given hrefs, all present. *)
Definition page (hrefs : list string) : Env :=
  env_with (scripted [200]) None None (map Some hrefs).

Definition w0 : World := {| trace := []; fs := ∅ |}.

End Sample.

(** ** Vocabulary of the further properties *)

(** The exceptions the collaborators of [download_pdf] can raise: the
    transport, the disk when it opens or writes, a stream that breaks. *)
Definition download_raises (env : Env) (e : exn) : Prop :=
  (exists n r, requests_get env n r = Raised e) \/
  (exists path, open_wb env path = Some e) \/
  (exists path current chunk, file_write env path current chunk = Some e) \/
  (exists n r response size,
     requests_get env n r = Returned response /\
     snd (iter_content response size) = Some e).

(** The events of one attempt that is answered with 403. *)
Definition forbidden_events (pdf_url : string) (retries attempt : Z) : list event :=
  [EGet (pdf_request pdf_url);
   EPrint (LForbidden pdf_url (attempt + 1) retries);
   ESleep 2].

(** The events [scrape_pdf_links] produces between launch and quit. *)
Definition is_page_event (ev : event) : bool :=
  match ev with
  | ENavigate _ | EWait _ | EFindElements | EPrint _ => true
  | _ => false
  end.

(** More mocks: a response whose stream breaks after its chunks. *)
Module Faulty.

Definition reset : exn := RequestException "connection reset".

Definition broken_response : Response :=
  {| status_code := 200; iter_content := fun _ => (Sample.body, Some reset) |}.

Definition broken_stream (_ : nat) (_ : Request) : Result Response :=
  Returned broken_response.

(** A transport that is down, with a console that refuses the error line
    of the [except] clause. *)
Definition closed_stdout : exn := OSError "stdout is closed".

Definition mute_console : Env :=
  {| requests_get := fun _ _ => Raised reset;
     open_wb := fun _ => None;
     file_write := fun _ _ _ => None;
     handler_print := fun _ => Some closed_stdout;
     chrome := None;
     driver_get := fun _ => None;
     wait_until := None;
     find_elements := Returned [];
     console_input := Returned "http://a.example/";
     os_path_join := fun dir name => dir +:+ "\" +:+ name |}.

(** A page one of whose anchors went stale. *)
Definition stale : exn := WebDriverException "stale element reference".

Definition stale_page : Env :=
  {| requests_get := Sample.scripted [];
     open_wb := fun _ => None;
     file_write := fun _ _ _ => None;
     handler_print := fun _ => None;
     chrome := None;
     driver_get := fun _ => None;
     wait_until := None;
     find_elements :=
       Returned (map Returned [Some "http://a.example/a.pdf"; None]
                 ++ Raised stale :: map Returned [Some "http://a.example/b.pdf"]);
     console_input := Returned "http://a.example/";
     os_path_join := fun dir name => dir +:+ "\" +:+ name |}.

End Faulty.

(** ** Strings: what [contains] and [split] compute *)

Section StringFacts.

Example lower_example : PyStr.lower "http://A.example/Report.PDF" = "http://a.example/report.pdf".
Proof. reflexivity. Qed.

Example split_example :
  PyStr.split "/" "http://a.example/docs/b.pdf" = ["http:"; ""; "a.example"; "docs"; "b.pdf"].
Proof. reflexivity. Qed.

Example split_trailing_example : PyStr.split "/" "docs/" = ["docs"; ""].
Proof. reflexivity. Qed.

Example is_pdf_link_examples :
  map is_pdf_link ["http://a.example/Report.PDF"; "https://consumereports.org/x.pdf";
                   "https://ConsumeReports.org/x.pdf"; "http://a.example/index.html"; ""]
  = [true; false; true; false; false].
Proof. reflexivity. Qed.

Lemma startswith_spec p s :
  PyStr.startswith p s = true <-> exists b, s = p +:+ b.
Proof.
  revert s. induction p as [|a p IH]; intros s; simpl.
  - split; [intros _; by exists s | done].
  - destruct s as [|b s].
    + split; [done | intros [? ?]; discriminate].
    + destruct (Ascii.eqb_spec a b) as [->|Hne].
      * rewrite IH. split; intros [t Ht]; exists t; [by rewrite Ht | by injection Ht].
      * split; [done | intros [t Ht]; injection Ht; congruence].
Qed.

Lemma contains_spec n s :
  PyStr.contains n s = true <-> Substring n s.
Proof.
  unfold Substring. induction s as [|c s IH]; simpl.
  - rewrite orb_false_r, startswith_spec. split.
    + intros [b Hb]. by exists EmptyString, b.
    + intros ([|? ?] & b & Hb); [by exists b | discriminate].
  - rewrite orb_true_iff, startswith_spec, IH. split.
    + intros [[b Hb] | (a & b & Hab)].
      * by exists EmptyString, b.
      * exists (String c a), b. simpl. by rewrite Hab.
    + intros ([|c' a] & b & Hab).
      * left. by exists b.
      * right. exists a, b. simpl in Hab. by injection Hab.
Qed.

Lemma contains_false n s :
  PyStr.contains n s = false <-> ~ Substring n s.
Proof.
  rewrite <- contains_spec. destruct (PyStr.contains n s); split; done.
Qed.

Lemma split_nonempty sep s : PyStr.split sep s <> [].
Proof.
  destruct s as [|c s]; simpl; [done |].
  destruct (Ascii.eqb c sep); [done |]. by destruct (PyStr.split sep s).
Qed.

(** Joining the fields with the separator gives the string back. *)
Lemma join_split sep s : join sep (PyStr.split sep s) = s.
Proof.
  induction s as [|c s IH]; simpl; [done |].
  destruct (Ascii.eqb_spec c sep) as [->|Hne].
  - pose proof (split_nonempty sep s) as Hne.
    simpl. destruct (PyStr.split sep s) as [|f fs]; [done |].
    simpl in *. by rewrite IH.
  - destruct (PyStr.split sep s) as [|f fs] eqn:E; [by destruct (split_nonempty sep s) |].
    rewrite <- IH. by destruct fs.
Qed.

(** No field holds the separator. *)
Lemma split_fields sep s :
  Forall (fun f => PyStr.contains (String sep EmptyString) f = false) (PyStr.split sep s).
Proof.
  induction s as [|c s IH]; simpl.
  - by repeat constructor.
  - destruct (Ascii.eqb_spec c sep) as [->|Hne].
    + constructor; [done | exact IH].
    + destruct (PyStr.split sep s) as [|f fs] eqn:E; [by destruct (split_nonempty sep s) |].
      inversion IH as [|? ? Hf Hfs]; subst. constructor; [|done].
      simpl. rewrite Hf. destruct (Ascii.eqb_spec sep c) as [->|?]; [done|].
      by destruct f.
Qed.

Lemma str_app_assoc a b c : (a +:+ b) +:+ c = a +:+ (b +:+ c).
Proof.
  induction a as [|x a IH]; [done |].
  change (String x ((a +:+ b) +:+ c) = String x (a +:+ (b +:+ c))). by rewrite IH.
Qed.

Lemma join_snoc sep fields seg :
  join sep (fields ++ [seg]) =
    match fields with
    | [] => seg
    | _ :: _ => join sep fields +:+ String sep seg
    end.
Proof.
  induction fields as [|f fields IH]; [done |].
  destruct fields as [|g fields]; [done |].
  change (join sep ((f :: g :: fields) ++ [seg]))
    with (f +:+ String sep (join sep ((g :: fields) ++ [seg]))).
  rewrite IH.
  change (join sep (f :: g :: fields)) with (f +:+ String sep (join sep (g :: fields))).
  by rewrite !str_app_assoc.
Qed.

(** [url.split('/')[-1]] is the final segment of [url]. *)
Lemma split_last_segment url :
  exists seg, last (PyStr.split "/" url) = Some seg /\ FinalSegment seg url.
Proof.
  pose proof (join_split "/" url) as Hjoin.
  pose proof (split_fields "/" url) as Hfields.
  destruct (PyStr.split "/" url) as [|f fs] eqn:E using rev_ind;
    [by destruct (split_nonempty "/" url) |].
  clear IHfs. exists f. rewrite last_snoc. split; [done |].
  apply Forall_app in Hfields as [_ Hseg]. apply Forall_inv in Hseg.
  split; [by apply contains_false |].
  rewrite join_snoc in Hjoin. destruct fs as [|g fs]; [by left |].
  right. exists (join "/" (g :: fs)). by rewrite <- Hjoin.
Qed.

End StringFacts.

(** ** Running the monad *)

Section Running.

Lemma bind_run {A B} (m : M A) (k : A -> M B) w :
  (m ≫= k) w =
    match m w with
    | (Returned a, w') => k a w'
    | (Raised e, w') => (Raised e, w')
    end.
Proof. reflexivity. Qed.

Lemma emit_run ev w : emit ev w = (Returned tt, extend w [ev]).
Proof. reflexivity. Qed.

Lemma extend_nil w : extend w [] = w.
Proof. destruct w. unfold extend. simpl. by rewrite app_nil_r. Qed.

Lemma extend_extend w evs1 evs2 :
  extend (extend w evs1) evs2 = extend w (evs1 ++ evs2).
Proof. unfold extend. simpl. by rewrite app_assoc. Qed.

Lemma gets_of_app tr1 tr2 : gets_of (tr1 ++ tr2) = gets_of tr1 ++ gets_of tr2.
Proof. apply omap_app. Qed.

Lemma sleeps_of_app tr1 tr2 : sleeps_of (tr1 ++ tr2) = sleeps_of tr1 ++ sleeps_of tr2.
Proof. apply omap_app. Qed.

Lemma file_events_of_app tr1 tr2 :
  file_events_of (tr1 ++ tr2) = file_events_of tr1 ++ file_events_of tr2.
Proof. apply List.filter_app. Qed.

(** File events are neither transport calls nor sleeps. *)
Lemma file_events_quiet evs :
  Forall (fun ev => is_file_event ev = true) evs ->
  gets_of evs = [] /\ sleeps_of evs = [].
Proof.
  induction 1 as [|ev evs Hev _ [IHg IHs]]; [done |].
  destruct ev; try discriminate; by split.
Qed.

End Running.

(** One step of symbolic execution. *)
Ltac run :=
  repeat (rewrite ?bind_run, ?emit_run;
          cbn [lift_outcome lift_result ret raise mret M_ret set_file
               trace fs default id fst snd]).

(** ** download_pdf, attempt by attempt *)

Section DownloadFacts.

Context (env : Env).

Lemma get_run r w :
  get env r w = (requests_get env (calls w) r, extend w [EGet r]).
Proof. unfold get. rewrite bind_run, emit_run. reflexivity. Qed.

(** All chunks written, when the disk accepts every write. *)
Lemma write_chunks_ok path chunks : forall w current,
  (forall cur chunk, file_write env path cur chunk = None) ->
  fs w !! path = Some current ->
  write_chunks env path chunks w =
    (Returned tt,
     {| trace := trace w ++ map (EWrite path) (List.filter nonempty chunks);
        fs := <[path := current ++ concat chunks]> (fs w) |}).
Proof.
  induction chunks as [|chunk chunks IH]; intros w current Hdisk Hcur.
  - simpl. rewrite !app_nil_r, insert_id by done. by destruct w.
  - cbn [write_chunks]. rewrite bind_run. destruct chunk as [|b chunk].
    + cbn [mret M_ret ret]. rewrite (IH _ current Hdisk Hcur). done.
    + unfold write. run. cbn [extend fs]. rewrite Hcur, Hdisk. run.
      rewrite (IH _ (current ++ b :: chunk) Hdisk) by apply lookup_insert_eq.
      cbn [extend trace fs List.filter nonempty map concat].
      by rewrite insert_insert_eq, <- !app_assoc.
Qed.

(** Whatever the disk does, writing the chunks only adds file events. *)
Lemma write_chunks_any path chunks : forall w,
  exists r w' evs,
    write_chunks env path chunks w = (r, w') /\
    trace w' = trace w ++ evs /\
    Forall (fun ev => is_file_event ev = true) evs.
Proof.
  induction chunks as [|chunk chunks IH]; intros w.
  - exists (Returned tt), w, []. by rewrite app_nil_r.
  - cbn [write_chunks]. rewrite bind_run. destruct chunk as [|b chunk].
    + cbn [mret M_ret ret]. apply IH.
    + unfold write. run.
      destruct (file_write env path _ (b :: chunk)) as [e|]; run.
      * eexists _, _, [_]. split; [done |].
        split; [done | by repeat constructor].
      * match goal with |- context [write_chunks env path chunks ?w1] =>
          destruct (IH w1) as (r & w' & evs & Hrun & Htr & Hevs) end.
        exists r, w', (EWrite path (b :: chunk) :: evs). rewrite Hrun, Htr.
        cbn [trace extend]. rewrite <- app_assoc.
        split; [done |]. split; [done | by constructor].
Qed.

(** The body is saved whole, when neither the disk nor the stream fails. *)
Lemma save_body_ok path response w :
  disk_ok env path ->
  snd (iter_content response 1024) = None ->
  save_body env path response w =
    (Returned tt,
     {| trace := trace w ++ save_events path (fst (iter_content response 1024));
        fs := <[path := concat (fst (iter_content response 1024))]> (fs w) |}).
Proof.
  intros [Hopen Hwrite] Hstream. unfold save_body, open_file.
  run. rewrite Hopen. run. unfold try_finally, write_stream. run.
  rewrite (write_chunks_ok _ _ _ [] Hwrite) by apply lookup_insert_eq.
  rewrite Hstream. run. cbn [close emit trace fs extend app].
  unfold save_events. by rewrite insert_insert_eq, <- !app_assoc.
Qed.

(** Whatever happens, saving only adds file events. *)
Lemma save_body_any path response w :
  exists r w' evs,
    save_body env path response w = (r, w') /\
    trace w' = trace w ++ evs /\
    Forall (fun ev => is_file_event ev = true) evs.
Proof.
  unfold save_body, open_file. run.
  destruct (open_wb env path) as [e|]; run.
  - eexists _, _, [_]. split; [done |]. split; [done | by repeat constructor].
  - unfold try_finally, write_stream. run.
    match goal with |- context [write_chunks env path ?cs ?w1] =>
      destruct (write_chunks_any path cs w1) as (r & w' & evs & Hrun & Htr & Hevs) end.
    rewrite Hrun. cbn [trace extend] in Htr.
    assert (Hall : Forall (fun ev => is_file_event ev = true)
                     (EOpen path :: evs ++ [EClose path])).
    { constructor; [done |]. apply Forall_app. split; [done | by repeat constructor]. }
    destruct r as [[]|e]; [destruct (snd (iter_content response 1024)) as [e|] |];
      run; cbn [close emit];
      eexists _, _, _; (split; [reflexivity |]); cbn [trace]; rewrite Htr, <- !app_assoc;
      (split; [reflexivity | exact Hall]).
Qed.

(** The four ways one attempt can go. *)
Lemma attempt_raise pdf_url save_path retries attempt w e :
  requests_get env (calls w) (pdf_request pdf_url) = Raised e ->
  attempt_body env pdf_url save_path retries attempt w =
    (Raised e, extend w [EGet (pdf_request pdf_url)]).
Proof. intros Hget. unfold attempt_body. rewrite bind_run, get_run, Hget. done. Qed.

Lemma attempt_403 pdf_url save_path retries attempt w response :
  requests_get env (calls w) (pdf_request pdf_url) = Returned response ->
  status_code response = 403 ->
  attempt_body env pdf_url save_path retries attempt w =
    (Returned Next,
     extend w [EGet (pdf_request pdf_url);
               EPrint (LForbidden pdf_url (attempt + 1) retries);
               ESleep 2]).
Proof.
  intros Hget Hstatus. unfold attempt_body. rewrite bind_run, get_run, Hget, Hstatus.
  cbn [Z.eqb Pos.eqb]. run. by rewrite !extend_extend.
Qed.

Lemma attempt_other pdf_url save_path retries attempt w response :
  requests_get env (calls w) (pdf_request pdf_url) = Returned response ->
  status_code response <> 200 ->
  status_code response <> 403 ->
  attempt_body env pdf_url save_path retries attempt w =
    (Returned Break,
     extend w [EGet (pdf_request pdf_url);
               EPrint (LFailedStatus (status_code response))]).
Proof.
  intros Hget H200 H403. unfold attempt_body. rewrite bind_run, get_run, Hget.
  apply Z.eqb_neq in H200, H403. rewrite H200, H403. run. by rewrite !extend_extend.
Qed.

Lemma attempt_200_ok pdf_url save_path retries attempt w response :
  requests_get env (calls w) (pdf_request pdf_url) = Returned response ->
  status_code response = 200 ->
  disk_ok env save_path ->
  snd (iter_content response 1024) = None ->
  attempt_body env pdf_url save_path retries attempt w =
    (Returned Return,
     {| trace := trace w ++ EGet (pdf_request pdf_url)
                   :: save_events save_path (fst (iter_content response 1024))
                   ++ [EPrint (LDownloaded save_path)];
        fs := <[save_path := concat (fst (iter_content response 1024))]> (fs w) |}).
Proof.
  intros Hget Hstatus Hdisk Hstream. unfold attempt_body.
  rewrite bind_run, get_run, Hget, Hstatus. cbn [Z.eqb Pos.eqb].
  rewrite bind_run, (save_body_ok _ _ _ Hdisk Hstream). run.
  unfold extend. cbn [trace fs]. by rewrite <- !app_assoc.
Qed.

Lemma attempt_200_open_fails pdf_url save_path retries attempt w response e :
  requests_get env (calls w) (pdf_request pdf_url) = Returned response ->
  status_code response = 200 ->
  open_wb env save_path = Some e ->
  attempt_body env pdf_url save_path retries attempt w =
    (Raised e, extend w [EGet (pdf_request pdf_url); EOpen save_path]).
Proof.
  intros Hget Hstatus Hopen. unfold attempt_body.
  rewrite bind_run, get_run, Hget, Hstatus. cbn [Z.eqb Pos.eqb].
  unfold save_body, open_file. run. rewrite Hopen. run. by rewrite extend_extend.
Qed.

Lemma attempt_200_any pdf_url save_path retries attempt w response :
  requests_get env (calls w) (pdf_request pdf_url) = Returned response ->
  status_code response = 200 ->
  exists r w' evs,
    attempt_body env pdf_url save_path retries attempt w = (r, w') /\
    trace w' = trace w ++ EGet (pdf_request pdf_url) :: evs /\
    gets_of evs = [] /\ sleeps_of evs = [] /\
    (r = Returned Return \/ exists e, r = Raised e).
Proof.
  intros Hget Hstatus. unfold attempt_body.
  rewrite bind_run, get_run, Hget, Hstatus. cbn [Z.eqb Pos.eqb]. rewrite bind_run.
  destruct (save_body_any save_path response (extend w [EGet (pdf_request pdf_url)]))
    as (r & w' & evs & Hrun & Htr & Hevs).
  apply file_events_quiet in Hevs as [Hg Hs]. rewrite Hrun.
  cbn [extend trace] in Htr. rewrite <- app_assoc in Htr.
  destruct r as [[]|e]; run.
  - eexists _, _, (evs ++ [_]). split; [done |]. cbn [extend trace].
    rewrite Htr, <- app_assoc, gets_of_app, sleeps_of_app, Hg, Hs. eauto.
  - eexists _, _, evs. eauto 10.
Qed.

(** Unfolding the loop by one attempt. *)
Lemma for_ctl_cons {A} (body : A -> M ctl) x l w :
  for_ctl body (x :: l) w =
    match body x w with
    | (Returned Next, w') => for_ctl body l w'
    | (Returned Break, w') => (Returned Break, w')
    | (Returned Return, w') => (Returned Return, w')
    | (Raised e, w') => (Raised e, w')
    end.
Proof.
  cbn [for_ctl]. rewrite bind_run. by destruct (body x w) as [[[]|] ?].
Qed.

Lemma range_cons n : 0 < n -> range n = 0 :: seqZ 1 (n - 1).
Proof. intros. unfold range. by rewrite seqZ_cons. Qed.

Lemma range_default : range default_retries = [0; 1; 2].
Proof. reflexivity. Qed.

(** [download_pdf] from the outcome of its [try] body. *)
Lemma download_pdf_run pdf_url save_path retries w :
  download_pdf env pdf_url save_path retries w =
    settle env (download_attempts env pdf_url save_path retries w).
Proof.
  unfold download_pdf, try_except_Exception, settle, print_error. rewrite bind_run.
  destruct (download_attempts env pdf_url save_path retries w) as [[c|e] w1]; [done |].
  destruct (isinstance_Exception e); [|done]. rewrite bind_run.
  by destruct (handler_print env e).
Qed.

(** The handler adds at most a printed line. *)
Lemma settle_quiet w r w1 evs :
  trace w1 = trace w ++ evs ->
  exists r' w' evs',
    settle env (r, w1) = (r', w') /\
    trace w' = trace w ++ evs' /\
    fs w' = fs w1 /\
    gets_of evs' = gets_of evs /\
    sleeps_of evs' = sleeps_of evs /\
    file_events_of evs' = file_events_of evs.
Proof.
  intros Htr. destruct r as [c|e]; cbn [settle].
  - by eexists _, _, _.
  - destruct (isinstance_Exception e); [|by eexists _, _, _].
    destruct (handler_print env e); [by eexists _, _, _ |].
    eexists _, _, (evs ++ [EPrint (LError e)]). split; [done |]. cbn [trace fs].
    rewrite Htr, <- app_assoc, gets_of_app, sleeps_of_app, file_events_of_app.
    cbn. by rewrite !app_nil_r.
Qed.

Lemma calls_extend w evs : calls (extend w evs) = (calls w + length (gets_of evs))%nat.
Proof. unfold calls. cbn [extend trace]. by rewrite gets_of_app, length_app. Qed.

(** Every attempt makes one transport call, and the loop stops at the
    first attempt that does not end in 403: between one and [retries]
    calls, all for [pdf_url]. *)
Lemma attempt_body_gets pdf_url save_path retries attempt w :
  exists r w' evs,
    attempt_body env pdf_url save_path retries attempt w = (r, w') /\
    trace w' = trace w ++ evs /\
    gets_of evs = [pdf_request pdf_url].
Proof.
  destruct (requests_get env (calls w) (pdf_request pdf_url))
    as [response|e] eqn:Hget.
  - destruct (decide (status_code response = 200)) as [H200|H200];
      [|destruct (decide (status_code response = 403)) as [H403|H403]].
    + destruct (attempt_200_any pdf_url save_path retries attempt w response Hget H200)
        as (r & w' & evs & Hrun & Htr & Hg & _).
      eexists _, _, _. split; [done |]. split; [done |].
      change (gets_of (EGet (pdf_request pdf_url) :: evs))
        with (pdf_request pdf_url :: gets_of evs). by rewrite Hg.
    + eexists _, _, _. split; [exact (attempt_403 _ _ _ _ _ _ Hget H403) |].
      split; reflexivity.
    + eexists _, _, _. split; [exact (attempt_other _ _ _ _ _ _ Hget H200 H403) |].
      split; reflexivity.
  - eexists _, _, _. split; [exact (attempt_raise _ _ _ _ _ _ Hget) |].
    split; reflexivity.
Qed.

Lemma download_attempts_gets pdf_url save_path retries attempts : forall w,
  exists r w' evs k,
    for_ctl (attempt_body env pdf_url save_path retries) attempts w = (r, w') /\
    trace w' = trace w ++ evs /\
    gets_of evs = replicate k (pdf_request pdf_url) /\
    (k <= length attempts)%nat /\
    (attempts <> [] -> (1 <= k)%nat).
Proof.
  induction attempts as [|attempt attempts IH]; intros w.
  - exists (Returned Next), w, [], 0%nat. by rewrite app_nil_r.
  - rewrite for_ctl_cons.
    destruct (attempt_body_gets pdf_url save_path retries attempt w)
      as (r & w1 & evs1 & Hrun & Htr & Hg). rewrite Hrun.
    assert (Hstop : forall r0, exists (r' : Result ctl) w' evs k,
              (r0, w1) = (r', w') /\ trace w' = trace w ++ evs /\
              gets_of evs = replicate k (pdf_request pdf_url) /\
              (k <= length (attempt :: attempts))%nat /\
              (attempt :: attempts <> [] -> (1 <= k)%nat)).
    { intros r0. exists r0, w1, evs1, 1%nat. cbn [length]. repeat split; [done..| lia | done]. }
    destruct r as [[]|e]; [|apply Hstop..].
    destruct (IH w1) as (r2 & w2 & evs2 & k & Hrun2 & Htr2 & Hg2 & Hk & _).
    exists r2, w2, (evs1 ++ evs2), (S k). rewrite Hrun2, Htr2, Htr, <- app_assoc.
    rewrite gets_of_app, Hg, Hg2. cbn [length]. repeat split; [lia.. | ]. lia.
Qed.

End DownloadFacts.

(** ** The claims about download_pdf *)

Lemma concat_nonempty (chunks : list bytes) :
  concat (List.filter nonempty chunks) = concat chunks.
Proof.
  induction chunks as [|[|b chunk] chunks IH]; [done | done |].
  cbn [List.filter nonempty concat]. by rewrite IH.
Qed.

(** C10.  With [retries <= 0] the loop has no iteration: no transport
    call, no file, no sleep; the world is unchanged and the function
    returns [None]. *)
Theorem download_pdf_no_retries env pdf_url save_path retries w :
  retries <= 0 ->
  download_pdf env pdf_url save_path retries w = (Returned tt, w).
Proof.
  intros Hle. rewrite download_pdf_run. unfold download_attempts, range.
  by rewrite seqZ_nil.
Qed.

Lemma download_pdf_no_retries_witness :
  download_pdf (Sample.env (Sample.scripted [200]) None None) "u" "p" (-1) Sample.w0
    = (Returned tt, Sample.w0).
Proof. apply download_pdf_no_retries. lia. Defined.

(** C5.  A first status other than 200 and 403: one transport call, the
    failure line, and the loop is left at once; no sleep, no file event,
    the file system unchanged. *)
Theorem download_pdf_other_status_stops env pdf_url save_path retries w response :
  0 < retries ->
  requests_get env (calls w) (pdf_request pdf_url) = Returned response ->
  status_code response <> 200 ->
  status_code response <> 403 ->
  exists w' evs,
    download_pdf env pdf_url save_path retries w = (Returned tt, w') /\
    trace w' = trace w ++ evs /\
    evs = [EGet (pdf_request pdf_url); EPrint (LFailedStatus (status_code response))] /\
    gets_of evs = [pdf_request pdf_url] /\
    sleeps_of evs = [] /\
    file_events_of evs = [] /\
    fs w' = fs w.
Proof.
  intros Hpos Hget H200 H403. rewrite download_pdf_run. unfold download_attempts.
  rewrite (range_cons _ Hpos), for_ctl_cons.
  rewrite (attempt_other _ _ _ _ _ _ _ Hget H200 H403). cbn [settle].
  by eexists _, _.
Qed.

Lemma download_pdf_other_status_stops_witness :
  exists w' evs,
    download_pdf (Sample.env (Sample.scripted [500]) None None) "u" "p" 3 Sample.w0
      = (Returned tt, w') /\
    trace w' = trace Sample.w0 ++ evs /\
    evs = [EGet (pdf_request "u"); EPrint (LFailedStatus 500)] /\
    gets_of evs = [pdf_request "u"] /\
    sleeps_of evs = [] /\
    file_events_of evs = [] /\
    fs w' = fs Sample.w0.
Proof.
  apply (download_pdf_other_status_stops
           (Sample.env (Sample.scripted [500]) None None) "u" "p" 3 Sample.w0
           (Sample.response 500)); [lia | reflexivity | simpl; lia | simpl; lia].
Defined.

(** C2.  Status 200 on the first attempt: exactly one transport call and
    no sleep, whatever the disk does; and when neither the disk nor the
    stream fails, the function returns after writing the non-empty chunks
    in order, so that the file holds the whole streamed body. *)
Theorem download_pdf_200_first_attempt env pdf_url save_path retries w response :
  0 < retries ->
  requests_get env (calls w) (pdf_request pdf_url) = Returned response ->
  status_code response = 200 ->
  exists r w' evs,
    download_pdf env pdf_url save_path retries w = (r, w') /\
    trace w' = trace w ++ evs /\
    gets_of evs = [pdf_request pdf_url] /\
    sleeps_of evs = [] /\
    (disk_ok env save_path ->
     snd (iter_content response 1024) = None ->
     r = Returned tt /\
     evs = EGet (pdf_request pdf_url)
             :: save_events save_path (fst (iter_content response 1024))
             ++ [EPrint (LDownloaded save_path)] /\
     fs w' = <[save_path := concat (List.filter nonempty (fst (iter_content response 1024)))]> (fs w) /\
     concat (List.filter nonempty (fst (iter_content response 1024)))
       = concat (fst (iter_content response 1024))).
Proof.
  intros Hpos Hget H200. rewrite download_pdf_run. unfold download_attempts.
  rewrite (range_cons _ Hpos), for_ctl_cons.
  destruct (attempt_200_any env pdf_url save_path retries 0 w response Hget H200)
    as (r1 & w1 & evs1 & Hrun & Htr & Hg & Hs & Hr).
  pose proof Hrun as Hrun'. rewrite Hrun.
  destruct (settle_quiet env w r1 w1 _ Htr) as (r' & w' & evs' & Hset & Htr' & Hfs & Hg' & Hs' & _).
  exists r', w', evs'. split; [by destruct Hr as [->|[e ->]] |].
  split; [done |].
  split; [rewrite Hg'; change (pdf_request pdf_url :: gets_of evs1 = [pdf_request pdf_url]);
          by rewrite Hg |].
  split; [rewrite Hs'; exact Hs |].
  intros Hdisk Hstream.
  rewrite (attempt_200_ok env _ _ _ _ _ _ Hget H200 Hdisk Hstream) in Hrun'.
  injection Hrun' as <- <-. cbn [settle] in Hset. injection Hset as <- <-.
  cbn [trace fs] in *. apply app_inv_head in Htr'.
  by rewrite concat_nonempty.
Qed.

Lemma download_pdf_200_first_attempt_witness :
  exists r w' evs,
    download_pdf (Sample.env (Sample.scripted [200]) None None) "u" "p" 3 Sample.w0
      = (r, w') /\
    trace w' = trace Sample.w0 ++ evs /\
    gets_of evs = [pdf_request "u"] /\
    sleeps_of evs = [] /\
    (disk_ok (Sample.env (Sample.scripted [200]) None None) "p" ->
     snd (iter_content (Sample.response 200) 1024) = None ->
     r = Returned tt /\
     evs = EGet (pdf_request "u")
             :: save_events "p" (fst (iter_content (Sample.response 200) 1024))
             ++ [EPrint (LDownloaded "p")] /\
     fs w' = <["p" := concat (List.filter nonempty (fst (iter_content (Sample.response 200) 1024)))]> (fs Sample.w0) /\
     concat (List.filter nonempty (fst (iter_content (Sample.response 200) 1024)))
       = concat (fst (iter_content (Sample.response 200) 1024))).
Proof.
  apply (download_pdf_200_first_attempt
           (Sample.env (Sample.scripted [200]) None None) "u" "p" 3 Sample.w0
           (Sample.response 200)); [lia | reflexivity | reflexivity].
Defined.

(** C3.  403, 403, then 200, with the default three attempts: exactly
    three transport calls and two sleeps of 2, one after each 403,
    whatever the disk does; and when neither the disk nor the stream
    fails, the body is written after the third call and the function
    returns. *)
Theorem download_pdf_403_403_200 env pdf_url save_path w r1 r2 r3 :
  requests_get env (calls w) (pdf_request pdf_url) = Returned r1 ->
  status_code r1 = 403 ->
  requests_get env (S (calls w)) (pdf_request pdf_url) = Returned r2 ->
  status_code r2 = 403 ->
  requests_get env (S (S (calls w))) (pdf_request pdf_url) = Returned r3 ->
  status_code r3 = 200 ->
  exists r w' evs,
    download_pdf env pdf_url save_path default_retries w = (r, w') /\
    trace w' = trace w ++ evs /\
    gets_of evs = replicate 3 (pdf_request pdf_url) /\
    sleeps_of evs = [2; 2] /\
    (disk_ok env save_path ->
     snd (iter_content r3 1024) = None ->
     r = Returned tt /\
     evs = [EGet (pdf_request pdf_url); EPrint (LForbidden pdf_url 1 3); ESleep 2;
            EGet (pdf_request pdf_url); EPrint (LForbidden pdf_url 2 3); ESleep 2;
            EGet (pdf_request pdf_url)]
           ++ save_events save_path (fst (iter_content r3 1024))
           ++ [EPrint (LDownloaded save_path)] /\
     fs w' = <[save_path := concat (fst (iter_content r3 1024))]> (fs w)).
Proof.
  intros Hget1 Hst1 Hget2 Hst2 Hget3 Hst3.
  rewrite download_pdf_run. unfold download_attempts. rewrite range_default.
  rewrite for_ctl_cons, (attempt_403 _ _ _ _ _ _ _ Hget1 Hst1).
  match goal with |- context [for_ctl _ _ ?w1] =>
    assert (Hc1 : calls w1 = S (calls w)) by (rewrite calls_extend; cbn; lia);
    rewrite <- Hc1 in Hget2, Hget3 end.
  rewrite for_ctl_cons, (attempt_403 _ _ _ _ _ _ _ Hget2 Hst2), extend_extend.
  match goal with |- context [for_ctl _ _ ?w2] =>
    assert (Hc2 : calls w2 = S (S (calls w))) by (rewrite calls_extend; cbn; lia);
    rewrite Hc1, <- Hc2 in Hget3 end.
  rewrite for_ctl_cons.
  match goal with |- context [attempt_body _ _ _ _ ?a ?w2] =>
    destruct (attempt_200_any env pdf_url save_path default_retries a w2 r3 Hget3 Hst3)
      as (r & w3 & evs3 & Hrun & Htr & Hg & Hs & Hr); pose proof Hrun as Hrun';
    rewrite Hrun end.
  cbn [extend trace app] in Htr. rewrite <- app_assoc in Htr.
  destruct (settle_quiet env w r w3 _ Htr) as (r' & w' & evs' & Hset & Htr' & Hfs & Hg' & Hs' & _).
  exists r', w', evs'. split; [by destruct Hr as [->|[e ->]] |].
  split; [done |].
  split; [rewrite Hg', gets_of_app; change (gets_of (EGet ?q :: evs3)) with (q :: gets_of evs3);
          by rewrite Hg |].
  split; [rewrite Hs', sleeps_of_app; change (sleeps_of (EGet ?q :: evs3)) with (sleeps_of evs3);
          by rewrite Hs |].
  intros Hdisk Hstream.
  rewrite (attempt_200_ok env _ _ _ _ _ _ Hget3 Hst3 Hdisk Hstream) in Hrun'.
  injection Hrun' as <- <-. cbn [settle] in Hset. injection Hset as <- <-.
  cbn [trace fs extend] in *. rewrite <- app_assoc in Htr'. apply app_inv_head in Htr'.
  by subst evs'.
Qed.

Lemma download_pdf_403_403_200_witness :
  exists r w' evs,
    download_pdf (Sample.env (Sample.scripted [403; 403; 200]) None None) "u" "p"
      default_retries Sample.w0 = (r, w') /\
    trace w' = trace Sample.w0 ++ evs /\
    gets_of evs = replicate 3 (pdf_request "u") /\
    sleeps_of evs = [2; 2] /\
    (disk_ok (Sample.env (Sample.scripted [403; 403; 200]) None None) "p" ->
     snd (iter_content (Sample.response 200) 1024) = None ->
     r = Returned tt /\
     evs = [EGet (pdf_request "u"); EPrint (LForbidden "u" 1 3); ESleep 2;
            EGet (pdf_request "u"); EPrint (LForbidden "u" 2 3); ESleep 2;
            EGet (pdf_request "u")]
           ++ save_events "p" (fst (iter_content (Sample.response 200) 1024))
           ++ [EPrint (LDownloaded "p")] /\
     fs w' = <["p" := concat (fst (iter_content (Sample.response 200) 1024))]> (fs Sample.w0)).
Proof.
  apply (download_pdf_403_403_200
           (Sample.env (Sample.scripted [403; 403; 200]) None None) "u" "p" Sample.w0
           (Sample.response 403) (Sample.response 403) (Sample.response 200));
    reflexivity.
Defined.

(** C4, as the code has it.  403 on all three attempts: exactly three
    transport calls, and a sleep of 2 after each of the three 403
    answers, the last one included; no file event, the file system
    unchanged, and the function returns [None] like on every other path. *)
Theorem download_pdf_403_exhausted env pdf_url save_path w r1 r2 r3 :
  requests_get env (calls w) (pdf_request pdf_url) = Returned r1 ->
  status_code r1 = 403 ->
  requests_get env (S (calls w)) (pdf_request pdf_url) = Returned r2 ->
  status_code r2 = 403 ->
  requests_get env (S (S (calls w))) (pdf_request pdf_url) = Returned r3 ->
  status_code r3 = 403 ->
  exists w' evs,
    download_pdf env pdf_url save_path default_retries w = (Returned tt, w') /\
    trace w' = trace w ++ evs /\
    evs = [EGet (pdf_request pdf_url); EPrint (LForbidden pdf_url 1 3); ESleep 2;
           EGet (pdf_request pdf_url); EPrint (LForbidden pdf_url 2 3); ESleep 2;
           EGet (pdf_request pdf_url); EPrint (LForbidden pdf_url 3 3); ESleep 2] /\
    gets_of evs = replicate 3 (pdf_request pdf_url) /\
    sleeps_of evs = [2; 2; 2] /\
    file_events_of evs = [] /\
    fs w' = fs w.
Proof.
  intros Hget1 Hst1 Hget2 Hst2 Hget3 Hst3.
  rewrite download_pdf_run. unfold download_attempts. rewrite range_default.
  rewrite for_ctl_cons, (attempt_403 _ _ _ _ _ _ _ Hget1 Hst1).
  match goal with |- context [for_ctl _ _ ?w1] =>
    assert (Hc1 : calls w1 = S (calls w)) by (rewrite calls_extend; cbn; lia);
    rewrite <- Hc1 in Hget2, Hget3 end.
  rewrite for_ctl_cons, (attempt_403 _ _ _ _ _ _ _ Hget2 Hst2), extend_extend.
  match goal with |- context [for_ctl _ _ ?w2] =>
    assert (Hc2 : calls w2 = S (S (calls w))) by (rewrite calls_extend; cbn; lia);
    rewrite Hc1, <- Hc2 in Hget3 end.
  rewrite for_ctl_cons, (attempt_403 _ _ _ _ _ _ _ Hget3 Hst3), extend_extend.
  cbn [for_ctl mret M_ret ret settle]. by eexists _, _.
Qed.

Lemma download_pdf_403_exhausted_witness :
  exists w' evs,
    download_pdf (Sample.env (Sample.scripted [403; 403; 403]) None None) "u" "p"
      default_retries Sample.w0 = (Returned tt, w') /\
    trace w' = trace Sample.w0 ++ evs /\
    evs = [EGet (pdf_request "u"); EPrint (LForbidden "u" 1 3); ESleep 2;
           EGet (pdf_request "u"); EPrint (LForbidden "u" 2 3); ESleep 2;
           EGet (pdf_request "u"); EPrint (LForbidden "u" 3 3); ESleep 2] /\
    gets_of evs = replicate 3 (pdf_request "u") /\
    sleeps_of evs = [2; 2; 2] /\
    file_events_of evs = [] /\
    fs w' = fs Sample.w0.
Proof.
  apply (download_pdf_403_exhausted
           (Sample.env (Sample.scripted [403; 403; 403]) None None) "u" "p" Sample.w0
           (Sample.response 403) (Sample.response 403) (Sample.response 403));
    reflexivity.
Defined.

(** C4 as stated fails: with 403 on all three attempts the function
    makes three calls and sleeps three times, not twice. *)
Lemma download_pdf_403_exhausted_sleeps_thrice :
  gets_of (trace (snd (download_pdf (Sample.env (Sample.scripted [403; 403; 403]) None None)
                         "u" "p" default_retries Sample.w0)))
    = replicate 3 (pdf_request "u") /\
  sleeps_of (trace (snd (download_pdf (Sample.env (Sample.scripted [403; 403; 403]) None None)
                           "u" "p" default_retries Sample.w0)))
    = [2; 2; 2] /\
  length (sleeps_of (trace (snd (download_pdf
                                   (Sample.env (Sample.scripted [403; 403; 403]) None None)
                                   "u" "p" default_retries Sample.w0))))
    <> 2%nat.
Proof. split; [|split]; [reflexivity | reflexivity | discriminate]. Qed.

(** C6, as the code has it.  The [except Exception] clause catches every
    exception of the attempts that derives from [Exception] (a network
    error of the first attempt, a disk error when the file is opened):
    the function prints the error and returns [None], as it does when
    the loop ends by itself, unless the print of the clause itself
    raises, in which case that exception leaves the function.  An
    exception of the attempts outside [Exception] (KeyboardInterrupt,
    SystemExit) is not caught: it reaches the caller as it is.  Nothing
    else reaches the caller. *)
Theorem download_pdf_catches_Exception env pdf_url save_path retries w :
  exists r w',
    download_pdf env pdf_url save_path retries w = (r, w') /\
    (forall c w1,
       download_attempts env pdf_url save_path retries w = (Returned c, w1) ->
       r = Returned tt /\ w' = w1) /\
    (forall e w1,
       download_attempts env pdf_url save_path retries w = (Raised e, w1) ->
       isinstance_Exception e = true ->
       handler_print env e = None ->
       r = Returned tt /\ w' = extend w1 [EPrint (LError e)]) /\
    (forall e e' w1,
       download_attempts env pdf_url save_path retries w = (Raised e, w1) ->
       isinstance_Exception e = true ->
       handler_print env e = Some e' ->
       r = Raised e' /\ w' = w1) /\
    (forall e w1,
       download_attempts env pdf_url save_path retries w = (Raised e, w1) ->
       isinstance_Exception e = false ->
       r = Raised e /\ w' = w1) /\
    (forall e, r = Raised e ->
       (isinstance_Exception e = false /\
        download_attempts env pdf_url save_path retries w = (Raised e, w')) \/
       (exists e0,
          isinstance_Exception e0 = true /\
          download_attempts env pdf_url save_path retries w = (Raised e0, w') /\
          handler_print env e0 = Some e)) /\
    (forall e,
       0 < retries ->
       requests_get env (calls w) (pdf_request pdf_url) = Raised e ->
       isinstance_Exception e = true ->
       handler_print env e = None ->
       r = Returned tt /\
       w' = extend w [EGet (pdf_request pdf_url); EPrint (LError e)]) /\
    (forall e response,
       0 < retries ->
       requests_get env (calls w) (pdf_request pdf_url) = Returned response ->
       status_code response = 200 ->
       open_wb env save_path = Some e ->
       isinstance_Exception e = true ->
       handler_print env e = None ->
       r = Returned tt /\
       w' = extend w [EGet (pdf_request pdf_url); EOpen save_path; EPrint (LError e)]) /\
    (forall e,
       0 < retries ->
       requests_get env (calls w) (pdf_request pdf_url) = Raised e ->
       isinstance_Exception e = false ->
       r = Raised e /\ w' = extend w [EGet (pdf_request pdf_url)]).
Proof.
  rewrite download_pdf_run.
  assert (Hnet : forall e, 0 < retries ->
            requests_get env (calls w) (pdf_request pdf_url) = Raised e ->
            download_attempts env pdf_url save_path retries w
              = (Raised e, extend w [EGet (pdf_request pdf_url)])).
  { intros e Hpos Hget. unfold download_attempts.
    by rewrite (range_cons _ Hpos), for_ctl_cons, (attempt_raise _ _ _ _ _ _ _ Hget). }
  assert (Hdisk : forall e response, 0 < retries ->
            requests_get env (calls w) (pdf_request pdf_url) = Returned response ->
            status_code response = 200 ->
            open_wb env save_path = Some e ->
            download_attempts env pdf_url save_path retries w
              = (Raised e, extend w [EGet (pdf_request pdf_url); EOpen save_path])).
  { intros e response Hpos Hget H200 Hopen. unfold download_attempts.
    by rewrite (range_cons _ Hpos), for_ctl_cons,
         (attempt_200_open_fails _ _ _ _ _ _ _ _ Hget H200 Hopen). }
  destruct (download_attempts env pdf_url save_path retries w) as [[c|e] w1] eqn:Hrun;
    cbn [settle].
  - exists (Returned tt), w1. split; [done |].
    split; [by intros c' w1' [= _ <-] |].
    split; [intros ? ? [=] |]. split; [intros ? ? ? [=] |]. split; [intros ? ? [=] |].
    split; [intros ? [=] |].
    split; [intros e Hpos Hget; by specialize (Hnet e Hpos Hget) |].
    split; [intros e response Hpos Hget H200 Hopen;
            by specialize (Hdisk e response Hpos Hget H200 Hopen) |].
    intros e Hpos Hget. by specialize (Hnet e Hpos Hget).
  - destruct (isinstance_Exception e) eqn:He;
      [destruct (handler_print env e) as [e'|] eqn:Hprint |].
    + exists (Raised e'), w1. split; [done |]. split; [intros ? ? [=] |].
      split; [intros ? ? [= <- <-]; congruence |].
      split; [intros ? ? ? [= <- <-] ? ?; split; congruence |].
      split; [intros ? ? [= <- <-]; congruence |].
      split; [intros ? [= <-]; right; eauto |].
      split; [intros e1 Hpos Hget; specialize (Hnet e1 Hpos Hget); congruence |].
      split; [intros e1 response Hpos Hget H200 Hopen;
              specialize (Hdisk e1 response Hpos Hget H200 Hopen); congruence |].
      intros e1 Hpos Hget. specialize (Hnet e1 Hpos Hget). congruence.
    + exists (Returned tt), (extend w1 [EPrint (LError e)]). split; [done |].
      split; [intros ? ? [=] |].
      split; [by intros ? ? [= <- <-] |].
      split; [intros ? ? ? [= <- <-]; congruence |].
      split; [intros ? ? [= <- <-]; congruence |].
      split; [intros ? [=] |].
      split. { intros e1 Hpos Hget _ _. specialize (Hnet e1 Hpos Hget).
               injection Hnet as -> ->. by rewrite extend_extend. }
      split. { intros e1 response Hpos Hget H200 Hopen _ _.
               specialize (Hdisk e1 response Hpos Hget H200 Hopen).
               injection Hdisk as -> ->. by rewrite extend_extend. }
      intros e1 Hpos Hget. specialize (Hnet e1 Hpos Hget). congruence.
    + exists (Raised e), w1. split; [done |]. split; [intros ? ? [=] |].
      split; [intros ? ? [= <- <-]; congruence |].
      split; [intros ? ? ? [= <- <-]; congruence |].
      split; [by intros ? ? [= <- <-] |].
      split; [intros ? [= <-]; by left |].
      split; [intros e1 Hpos Hget; specialize (Hnet e1 Hpos Hget); congruence |].
      split; [intros e1 response Hpos Hget H200 Hopen;
              specialize (Hdisk e1 response Hpos Hget H200 Hopen); congruence |].
      intros e1 Hpos Hget _. specialize (Hnet e1 Hpos Hget). by injection Hnet as -> ->.
Qed.

Lemma download_pdf_catches_Exception_witness :
  exists r w',
    download_pdf (Sample.env (fun _ _ => Raised (RequestException "unreachable")) None None)
      "u" "p" 3 Sample.w0 = (r, w') /\
    r = Returned tt /\
    w' = extend Sample.w0
           [EGet (pdf_request "u"); EPrint (LError (RequestException "unreachable"))].
Proof.
  destruct (download_pdf_catches_Exception
              (Sample.env (fun _ _ => Raised (RequestException "unreachable")) None None)
              "u" "p" 3 Sample.w0) as (r & w' & Hrun & _ & _ & _ & _ & _ & Hnet & _).
  exists r, w'. split; [exact Hrun |].
  apply (Hnet (RequestException "unreachable")); [lia | reflexivity | reflexivity | reflexivity].
Defined.

(** The other way out: the transport fails with an ordinary error, which
    is caught, and the print of the handler raises in its turn. *)
Example download_pdf_handler_print_raises :
  download_pdf Faulty.mute_console "u" "p" default_retries Sample.w0
  = (Raised Faulty.closed_stdout, extend Sample.w0 [EGet (pdf_request "u")]).
Proof. reflexivity. Qed.

(** C6 as stated fails: an interrupt raised by the transport is not an
    [Exception]; it passes the [except] clause and reaches the caller. *)
Lemma download_pdf_propagates_KeyboardInterrupt :
  download_pdf (Sample.env (fun _ _ => Raised KeyboardInterrupt) None None)
    "u" "p" default_retries Sample.w0
  = (Raised KeyboardInterrupt, extend Sample.w0 [EGet (pdf_request "u")]).
Proof. reflexivity. Qed.

(** ** scrape_pdf_links *)

Section ScrapeFacts.

Context (env : Env).

Lemma is_pdf_link_spec h :
  is_pdf_link h = true <->
  Substring ".pdf" (PyStr.lower h) /\ ~ Substring "consumereports.org" h.
Proof.
  unfold is_pdf_link. by rewrite andb_true_iff, negb_true_iff, contains_spec, contains_false.
Qed.

Lemma present_hrefs_cons v values :
  present_hrefs (v :: values) =
    match v with
    | Some h => if PyStr.truthy h then h :: present_hrefs values else present_hrefs values
    | None => present_hrefs values
    end.
Proof. destruct v as [h|]; [|done]. unfold present_hrefs. cbn. by destruct (PyStr.truthy h). Qed.

(** The loop over the anchors, when every [get_attribute] answers. *)
Lemma link_loop_ok values : forall pdf_links w,
  for_acc link_body (map Returned values) pdf_links w =
    (Returned (pdf_links ++ List.filter is_pdf_link (present_hrefs values)),
     extend w (href_lines (present_hrefs values))).
Proof.
  induction values as [|v values IH]; intros pdf_links w.
  - cbn. by rewrite app_nil_r, extend_nil.
  - cbn [map for_acc]. rewrite bind_run. unfold link_body at 1. run.
    destruct v as [h|]; [destruct (PyStr.truthy h) eqn:Htruthy |]; run.
    + rewrite present_hrefs_cons, Htruthy. cbn [List.filter href_lines flat_map].
      destruct (is_pdf_link h) eqn:Hpdf; run;
        rewrite IH, !extend_extend, <- ?app_assoc; reflexivity.
    + rewrite present_hrefs_cons, Htruthy. apply IH.
    + rewrite present_hrefs_cons. apply IH.
Qed.

Lemma print_loop links : forall w,
  for_acc (fun pdf (_ : unit) => emit (EPrint (LLink pdf))) links tt w =
    (Returned tt, extend w (map (fun pdf => EPrint (LLink pdf)) links)).
Proof.
  induction links as [|pdf links IH]; intros w.
  - cbn. by rewrite extend_nil.
  - cbn [for_acc map]. run. by rewrite IH, extend_extend.
Qed.

(** The [try] body on a page that loads and whose anchors all answer. *)
Lemma scrape_body_ok url values w :
  driver_get env url = None ->
  wait_until env = None ->
  find_elements env = Returned (map Returned values) ->
  scrape_body env url w =
    (Returned (List.filter is_pdf_link (present_hrefs values)),
     extend w (scrape_events url (present_hrefs values))).
Proof.
  intros Hnav Hwait Hfind. unfold scrape_body. run. rewrite Hnav. run.
  rewrite Hwait. run. rewrite Hfind. run. rewrite link_loop_ok. run.
  rewrite print_loop. run. rewrite !extend_extend. done.
Qed.

Lemma scrape_pdf_links_ok url values w :
  chrome env = None ->
  driver_get env url = None ->
  wait_until env = None ->
  find_elements env = Returned (map Returned values) ->
  scrape_pdf_links env url w =
    (Returned (List.filter is_pdf_link (present_hrefs values)),
     extend w (ELaunch chrome_options
                 :: scrape_events url (present_hrefs values) ++ [EQuit])).
Proof.
  intros Hchrome Hnav Hwait Hfind. unfold scrape_pdf_links. run. rewrite Hchrome. run.
  unfold try_finally. rewrite (scrape_body_ok _ _ _ Hnav Hwait Hfind).
  unfold quit. rewrite emit_run, !extend_extend. done.
Qed.

(** An empty href fails the filter by itself. *)
Lemma filter_present hrefs :
  List.filter is_pdf_link (present_hrefs (map Some hrefs)) = List.filter is_pdf_link hrefs.
Proof.
  induction hrefs as [|h hrefs IH]; [done |].
  cbn [map]. rewrite present_hrefs_cons.
  destruct h as [|c h]; cbn [PyStr.truthy]; [exact IH |].
  cbn [List.filter]. by rewrite IH.
Qed.

Lemma present_hrefs_truthy values h :
  In h (present_hrefs values) -> PyStr.truthy h = true /\ In (Some h) values.
Proof.
  induction values as [|v values IH]; [done |].
  rewrite present_hrefs_cons.
  destruct v as [h'|]; [destruct (PyStr.truthy h') eqn:Htruthy |]; cbn [In app].
  - intros [->|Hin]; [by auto |]. destruct (IH Hin). auto.
  - intros Hin. destruct (IH Hin). auto.
  - intros Hin. destruct (IH Hin). auto.
Qed.

(** Browser events are counted piecewise. *)
Lemma launches_of_app evs1 evs2 :
  launches_of (evs1 ++ evs2) = (launches_of evs1 + launches_of evs2)%nat.
Proof. unfold launches_of. by rewrite List.filter_app, length_app. Qed.

Lemma quits_of_app evs1 evs2 :
  quits_of (evs1 ++ evs2) = (quits_of evs1 + quits_of evs2)%nat.
Proof. unfold quits_of. by rewrite List.filter_app, length_app. Qed.

Lemma no_browser_events evs :
  Forall (fun ev => is_browser_event ev = false) evs ->
  launches_of evs = 0%nat /\ quits_of evs = 0%nat.
Proof.
  induction 1 as [|ev evs Hev _ [IHl IHq]]; [done |].
  unfold launches_of, quits_of in *. destruct ev; try discriminate; by cbn.
Qed.

Lemma link_lines_quiet links :
  Forall (fun ev => is_browser_event ev = false)
         (map (fun pdf => EPrint (LLink pdf)) links).
Proof. induction links; by constructor. Qed.

Ltac no_browser :=
  repeat match goal with
         | |- Forall _ [] => constructor
         | |- Forall _ (_ :: _) => constructor; [reflexivity |]
         | |- Forall _ (_ ++ _) => apply Forall_app; split
         | |- Forall _ (map _ _) => apply link_lines_quiet
         | H : Forall _ ?l |- Forall _ ?l => exact H
         end.

(** Whatever the anchors answer, the loop only prints. *)
Lemma link_loop_any links : forall pdf_links w,
  exists r evs,
    for_acc link_body links pdf_links w = (r, extend w evs) /\
    Forall (fun ev => is_browser_event ev = false) evs.
Proof.
  induction links as [|link links IH]; intros pdf_links w.
  - exists (Returned pdf_links), []. by rewrite extend_nil.
  - cbn [for_acc]. rewrite bind_run. unfold link_body at 1. run.
    assert (Hskip : exists r evs,
              for_acc link_body links pdf_links w = (r, extend w evs) /\
              Forall (fun ev => is_browser_event ev = false) evs) by apply IH.
    destruct link as [[h|]|e]; run; [|done |].
    + destruct (PyStr.truthy h); run; [|done].
      destruct (is_pdf_link h); run.
      * destruct (IH (pdf_links ++ [h])
                    (extend (extend w [EPrint (LFoundHref h)]) [EPrint (LValidPdf h)]))
          as (r & evs & Hrun & Hevs).
        rewrite Hrun, !extend_extend. eexists _, _. split; [done |]. no_browser.
      * destruct (IH pdf_links (extend w [EPrint (LFoundHref h)]))
          as (r & evs & Hrun & Hevs).
        rewrite Hrun, !extend_extend. eexists _, _. split; [done |]. no_browser.
    + exists (Raised e), []. by rewrite extend_nil.
Qed.

(** Whatever happens in the [try] body, it neither creates nor quits a
    browser, and it leaves the file system alone. *)
Lemma scrape_body_any url w :
  exists r evs,
    scrape_body env url w = (r, extend w evs) /\
    Forall (fun ev => is_browser_event ev = false) evs.
Proof.
  unfold scrape_body. run.
  destruct (driver_get env url) as [e|]; run.
  { eexists _, _. split; [done |]. no_browser. }
  destruct (wait_until env) as [e|]; run.
  { eexists _, _. rewrite !extend_extend. split; [done |]. no_browser. }
  destruct (find_elements env) as [links|e]; run.
  2: { eexists _, _. rewrite !extend_extend. split; [done |]. no_browser. }
  match goal with |- context [for_acc link_body links [] ?w1] =>
    destruct (link_loop_any links [] w1) as (r & evs & Hrun & Hevs) end.
  rewrite Hrun. destruct r as [pdf_links|e]; run.
  - rewrite print_loop. run. rewrite !extend_extend. eexists _, _. split; [done |].
    no_browser.
  - rewrite !extend_extend. eexists _, _. split; [done |]. no_browser.
Qed.

End ScrapeFacts.

(** ** The claims about scrape_pdf_links *)

(** C7.  Every browser instance that was created is quit: on every exit
    path the scraper quits as many browsers as it launched; once the
    browser exists, the [try] body never quits it, [quit] is the last
    event of the call, and the outcome of the body, a result or an
    exception, is the outcome of the call.  So an exception of the
    navigation or of the wait reaches the caller, after the quit. *)
Theorem scrape_pdf_links_quits_browser env url w :
  exists r w' evs,
    scrape_pdf_links env url w = (r, w') /\
    w' = extend w evs /\
    launches_of evs = quits_of evs /\
    (chrome env = None ->
     exists body_evs,
       scrape_body env url (extend w [ELaunch chrome_options])
         = (r, extend w (ELaunch chrome_options :: body_evs)) /\
       evs = ELaunch chrome_options :: body_evs ++ [EQuit] /\
       launches_of body_evs = 0%nat /\
       quits_of body_evs = 0%nat) /\
    (forall e,
       chrome env = None ->
       driver_get env url = Some e ->
       r = Raised e /\ evs = [ELaunch chrome_options; ENavigate url; EQuit]) /\
    (forall e,
       chrome env = None ->
       driver_get env url = None ->
       wait_until env = Some e ->
       r = Raised e /\
       evs = [ELaunch chrome_options; ENavigate url; EWait 10; EQuit]).
Proof.
  unfold scrape_pdf_links. run. destruct (chrome env) as [e0|] eqn:Hchrome; run.
  { exists (Raised e0), w, []. rewrite extend_nil. by repeat split. }
  unfold try_finally.
  destruct (scrape_body_any env url (extend w [ELaunch chrome_options]))
    as (r & body_evs & Hrun & Hevs).
  pose proof Hrun as Hbody. rewrite Hrun. unfold quit. rewrite emit_run, !extend_extend.
  apply no_browser_events in Hevs as [Hl Hq].
  exists r, (extend w ([ELaunch chrome_options] ++ body_evs ++ [EQuit])),
    (ELaunch chrome_options :: body_evs ++ [EQuit]).
  split; [done |]. split; [done |].
  split.
  { change (ELaunch chrome_options :: body_evs ++ [EQuit])
      with ([ELaunch chrome_options] ++ body_evs ++ [EQuit]).
    rewrite !launches_of_app, !quits_of_app, Hl, Hq. reflexivity. }
  split.
  { intros _. exists body_evs. rewrite extend_extend in Hbody. by repeat split. }
  revert Hbody. unfold scrape_body. run.
  destruct (driver_get env url) as [e1|]; run.
  { intros [= <- Hw]; split; intros e; intros; [|done].
    apply app_inv_head in Hw as <-. split; [congruence | done]. }
  destruct (wait_until env) as [e2|]; run.
  { intros [= <- Hw]; split; intros e; intros; [done |].
    rewrite <- app_assoc in Hw. apply app_inv_head in Hw as <-.
    split; [congruence | done]. }
  intros _. split; intros e; intros; done.
Qed.

Lemma scrape_pdf_links_quits_browser_witness :
  exists r w' evs,
    scrape_pdf_links
      (Sample.env (Sample.scripted []) (Some (WebDriverException "unreachable")) None)
      "http://a.example/" Sample.w0 = (r, w') /\
    w' = extend Sample.w0 evs /\
    r = Raised (WebDriverException "unreachable") /\
    evs = [ELaunch chrome_options; ENavigate "http://a.example/"; EQuit].
Proof.
  destruct (scrape_pdf_links_quits_browser
              (Sample.env (Sample.scripted []) (Some (WebDriverException "unreachable")) None)
              "http://a.example/" Sample.w0)
    as (r & w' & evs & Hrun & Hw & _ & _ & Hnav & _).
  exists r, w', evs. split; [exact Hrun |]. split; [exact Hw |].
  apply Hnav; reflexivity.
Defined.

(** C1.  On a page that loads, for every sequence of hrefs, the scraper
    returns the input filtered by [is_pdf_link], so exactly the hrefs
    that pass, in the input order; and an href passes exactly when its
    lowercase form contains ".pdf" and it does not itself contain
    "consumereports.org". *)
Theorem scrape_pdf_links_filters env url w hrefs :
  chrome env = None ->
  driver_get env url = None ->
  wait_until env = None ->
  find_elements env = Returned (map (fun h => Returned (Some h)) hrefs) ->
  (exists w', scrape_pdf_links env url w = (Returned (List.filter is_pdf_link hrefs), w')) /\
  (forall h, is_pdf_link h = true <->
             Substring ".pdf" (PyStr.lower h) /\ ~ Substring "consumereports.org" h).
Proof.
  intros Hchrome Hnav Hwait Hfind. split; [|apply is_pdf_link_spec].
  rewrite <- (map_map Some Returned) in Hfind.
  rewrite (scrape_pdf_links_ok env url _ w Hchrome Hnav Hwait Hfind), filter_present.
  by eexists.
Qed.

Lemma scrape_pdf_links_filters_witness :
  (exists w',
     scrape_pdf_links
       (Sample.page ["http://a.example/Report.PDF"; "https://consumereports.org/x.pdf";
                     "http://a.example/index.html"; "files/b.pdf?v=2"])
       "http://a.example/" Sample.w0
     = (Returned (List.filter is_pdf_link
                    ["http://a.example/Report.PDF"; "https://consumereports.org/x.pdf";
                     "http://a.example/index.html"; "files/b.pdf?v=2"]), w')) /\
  (forall h, is_pdf_link h = true <->
             Substring ".pdf" (PyStr.lower h) /\ ~ Substring "consumereports.org" h).
Proof.
  apply (scrape_pdf_links_filters
           (Sample.page ["http://a.example/Report.PDF"; "https://consumereports.org/x.pdf";
                         "http://a.example/index.html"; "files/b.pdf?v=2"]));
    reflexivity.
Defined.

(** C9.  Anchors whose href is absent or empty are skipped: on a page
    that loads, the call returns normally, and both the returned list
    and the printed lines are those of the present, non-empty hrefs
    alone; the empty string is never returned, and every returned link
    is the href of some anchor. *)
Theorem scrape_pdf_links_skips_missing_href env url w values :
  chrome env = None ->
  driver_get env url = None ->
  wait_until env = None ->
  find_elements env = Returned (map Returned values) ->
  exists links w',
    scrape_pdf_links env url w = (Returned links, w') /\
    links = List.filter is_pdf_link (present_hrefs values) /\
    w' = extend w (ELaunch chrome_options
                     :: scrape_events url (present_hrefs values) ++ [EQuit]) /\
    present_hrefs (None :: values) = present_hrefs values /\
    present_hrefs (Some EmptyString :: values) = present_hrefs values /\
    ~ In EmptyString links /\
    (forall h, In h links -> In (Some h) values).
Proof.
  intros Hchrome Hnav Hwait Hfind.
  rewrite (scrape_pdf_links_ok env url _ w Hchrome Hnav Hwait Hfind).
  eexists _, _. split; [done |]. split; [done |]. split; [done |].
  split; [done |]. split; [done |]. split.
  - intros [Hin _]%filter_In. by apply present_hrefs_truthy in Hin as [? _].
  - intros h [Hin _]%filter_In. by apply present_hrefs_truthy in Hin as [_ ?].
Qed.

Lemma scrape_pdf_links_skips_missing_href_witness :
  exists links w',
    scrape_pdf_links (Sample.env (Sample.scripted []) None None) "http://a.example/" Sample.w0
      = (Returned links, w') /\
    links = List.filter is_pdf_link (present_hrefs Sample.anchors) /\
    w' = extend Sample.w0
           (ELaunch chrome_options
              :: scrape_events "http://a.example/" (present_hrefs Sample.anchors) ++ [EQuit]) /\
    present_hrefs (None :: Sample.anchors) = present_hrefs Sample.anchors /\
    present_hrefs (Some EmptyString :: Sample.anchors) = present_hrefs Sample.anchors /\
    ~ In EmptyString links /\
    (forall h, In h links -> In (Some h) Sample.anchors).
Proof.
  apply (scrape_pdf_links_skips_missing_href (Sample.env (Sample.scripted []) None None));
    reflexivity.
Defined.

(** ** main *)

Section MainFacts.

Context (env : Env).

(** One link: the name is made of [save_dir] and the final segment. *)
Lemma download_link_run pdf_url w :
  exists seg,
    FinalSegment seg pdf_url /\
    download_link env pdf_url tt w =
      download_pdf env pdf_url (os_path_join env save_dir seg) default_retries w.
Proof.
  destruct (split_last_segment pdf_url) as (seg & Hlast & Hseg).
  exists seg. split; [done |]. unfold download_link, last_item.
  rewrite bind_run, Hlast. reflexivity.
Qed.

(** With the default three attempts, one to three calls, all for the link. *)
Lemma download_pdf_gets pdf_url save_path w :
  exists r w' evs k,
    download_pdf env pdf_url save_path default_retries w = (r, w') /\
    trace w' = trace w ++ evs /\
    gets_of evs = replicate k (pdf_request pdf_url) /\
    (1 <= k <= 3)%nat.
Proof.
  rewrite download_pdf_run. unfold download_attempts. rewrite range_default.
  destruct (download_attempts_gets env pdf_url save_path default_retries [0; 1; 2] w)
    as (r & w1 & evs & k & Hrun & Htr & Hg & Hk & Hk1).
  rewrite Hrun.
  destruct (settle_quiet env w r w1 evs Htr) as (r' & w' & evs' & Hset & Htr' & _ & Hg' & _).
  exists r', w', evs', k. rewrite Hg'. cbn [length] in Hk.
  repeat split; [done.. | by apply Hk1 | done].
Qed.

Lemma download_loop links : forall w,
  exists r w',
    for_acc (download_link env) links tt w = (r, w') /\
    Downloads env links w r w' /\
    (r = Returned tt ->
     exists evs, trace w' = trace w ++ evs /\ InOrder links (gets_of evs)).
Proof.
  induction links as [|pdf_url links IH]; intros w.
  - exists (Returned tt), w. split; [done |]. split; [constructor |].
    intros _. exists []. rewrite app_nil_r. split; [done | constructor].
  - cbn [for_acc]. rewrite bind_run.
    destruct (download_link_run pdf_url w) as (seg & Hseg & ->).
    destruct (download_pdf_gets pdf_url (os_path_join env save_dir seg) w)
      as (r1 & w1 & evs1 & k & Hrun & Htr & Hg & Hk).
    rewrite Hrun. destruct r1 as [[]|e].
    + destruct (IH w1) as (r & w' & Hloop & Hdown & Hreq).
      exists r, w'. split; [done |]. split; [by eapply Downloads_cons |].
      intros Hr. destruct (Hreq Hr) as (evs & Htr' & Hin).
      exists (evs1 ++ evs). rewrite Htr', Htr, <- app_assoc, gets_of_app, Hg.
      split; [done | by constructor].
    + exists (Raised e), w1. split; [done |]. split; [by eapply Downloads_stop |].
      intros [=].
Qed.

End MainFacts.

(** C8.  When the scraper returns links, [main] downloads them one after
    the other in the order returned, each under the name that
    [os.path.join] makes of [save_dir] and the final segment of the URL
    (what follows its last ['/']), with the default three attempts; when
    the run completes, the transport calls are those of the links in that
    order, one to three for each. *)
Theorem main_downloads_in_order env w url links w1 :
  console_input env = Returned url ->
  scrape_pdf_links env url (extend w [EInput "Enter the URL to scrape PDF links from: "])
    = (Returned links, w1) ->
  links <> [] ->
  exists r w',
    main env w = (r, w') /\
    Downloads env links w1 r w' /\
    (r = Returned tt ->
     exists evs, trace w' = trace w1 ++ evs /\ InOrder links (gets_of evs)).
Proof.
  intros Hinput Hscrape Hlinks. unfold main. run. rewrite Hinput. run.
  rewrite Hscrape. destruct links as [|pdf_url links]; [done |].
  apply download_loop.
Qed.

Lemma main_downloads_in_order_witness :
  exists r w',
    main (Sample.env (Sample.scripted [403; 200; 200]) None None) Sample.w0 = (r, w') /\
    Downloads (Sample.env (Sample.scripted [403; 200; 200]) None None)
      ["http://a.example/Report.PDF"; "files/b.pdf?v=2"]
      (extend Sample.w0
         (EInput "Enter the URL to scrape PDF links from: "
            :: ELaunch chrome_options
            :: scrape_events "http://a.example/" (present_hrefs Sample.anchors) ++ [EQuit]))
      r w' /\
    (r = Returned tt ->
     exists evs,
       trace w' =
         trace (extend Sample.w0
                  (EInput "Enter the URL to scrape PDF links from: "
                     :: ELaunch chrome_options
                     :: scrape_events "http://a.example/" (present_hrefs Sample.anchors)
                     ++ [EQuit])) ++ evs /\
       InOrder ["http://a.example/Report.PDF"; "files/b.pdf?v=2"] (gets_of evs)).
Proof.
  apply (main_downloads_in_order
           (Sample.env (Sample.scripted [403; 200; 200]) None None) Sample.w0
           "http://a.example/"); [reflexivity | reflexivity | discriminate].
Defined.

(** ** Further properties of download_pdf *)

Section DownloadCases.

Context (env : Env).

(** However the writes go, the file holds what it held followed by a
    prefix of the chunks; all of them if the loop ends normally. *)
Lemma write_chunks_cases path chunks : forall w current,
  fs w !! path = Some current ->
  exists r w' evs written,
    write_chunks env path chunks w = (r, w') /\
    trace w' = trace w ++ evs /\
    Forall (fun ev => is_file_event ev = true) evs /\
    fs w' = <[path := current ++ written]> (fs w) /\
    written `prefix_of` concat chunks /\
    (r = Returned tt -> written = concat chunks) /\
    (forall e, r = Raised e -> exists cur chunk, file_write env path cur chunk = Some e).
Proof.
  induction chunks as [|chunk chunks IH]; intros w current Hcur.
  - exists (Returned tt), w, [], []. rewrite !app_nil_r, insert_id by done.
    repeat split; [done.. |]. intros e [=].
  - cbn [write_chunks]. rewrite bind_run. destruct chunk as [|b chunk].
    + cbn [mret M_ret ret]. apply IH, Hcur.
    + unfold write. run. cbn [extend fs]. rewrite Hcur. cbn [default].
      destruct (file_write env path current (b :: chunk)) as [e|] eqn:Hwrite;
        run; rewrite ?Hwrite; run.
      * exists (Raised e), (extend w [EWrite path (b :: chunk)]), [EWrite path (b :: chunk)], [].
        cbn [extend trace fs]. rewrite app_nil_r, insert_id by done.
        split; [done |]. split; [done |]. split; [by repeat constructor |].
        split; [done |]. split; [apply prefix_nil |]. split; [done |].
        intros e' [= <-]. eauto.
      * match goal with |- context [write_chunks env path chunks ?w1] =>
          destruct (IH w1 (current ++ b :: chunk))
            as (r & w' & evs & written & Hrun & Htr & Hevs & Hfs & Hpre & Hall & Hexn);
            [apply lookup_insert_eq |] end.
        exists r, w', (EWrite path (b :: chunk) :: evs), ((b :: chunk) ++ written).
        rewrite Hrun, Htr, Hfs. cbn [extend trace fs concat].
        rewrite insert_insert_eq, <- !app_assoc.
        repeat split; [by constructor | by apply prefix_app | | done].
        intros Hr. by rewrite (Hall Hr).
Qed.

(** What saving a body can do. *)
Lemma save_body_cases path response w :
  exists r w' evs,
    save_body env path response w = (r, w') /\
    trace w' = trace w ++ evs /\
    Forall (fun ev => is_file_event ev = true) evs /\
    (forall e, r = Raised e ->
       open_wb env path = Some e \/
       (exists cur chunk, file_write env path cur chunk = Some e) \/
       snd (iter_content response 1024) = Some e) /\
    match open_wb env path with
    | Some e => r = Raised e /\ fs w' = fs w
    | None =>
        exists written,
          fs w' = <[path := written]> (fs w) /\
          written `prefix_of` concat (fst (iter_content response 1024)) /\
          (r = Returned tt ->
           written = concat (fst (iter_content response 1024)) /\
           snd (iter_content response 1024) = None)
    end.
Proof.
  unfold save_body, open_file. run.
  destruct (open_wb env path) as [e0|] eqn:Hopen; run.
  { eexists _, _, [_]. split; [done |]. split; [done |].
    split; [by repeat constructor |]. split; [|done].
    intros e [= <-]. by left. }
  unfold try_finally, write_stream. run.
  match goal with |- context [write_chunks env path ?cs ?w1] =>
    destruct (write_chunks_cases path cs w1 [])
      as (r & w' & evs & written & Hrun & Htr & Hevs & Hfs & Hpre & Hall & Hexn);
      [apply lookup_insert_eq |] end.
  rewrite Hrun. cbn [trace fs extend] in Htr, Hfs. rewrite insert_insert_eq in Hfs.
  assert (Hfile : Forall (fun ev => is_file_event ev = true)
                    (EOpen path :: evs ++ [EClose path])).
  { constructor; [done |]. apply Forall_app. split; [done | by repeat constructor]. }
  destruct r as [[]|e].
  - destruct (snd (iter_content response 1024)) as [e|] eqn:Hstream; run;
      cbn [close emit]; eexists _, _, _; (split; [reflexivity |]); cbn [trace fs];
      rewrite Htr, <- !app_assoc; (split; [reflexivity |]); (split; [exact Hfile |]).
    + split; [intros e' [= <-]; by right; right |].
      exists written. rewrite Hfs. by repeat split.
    + split; [intros e' [=] |]. exists written. rewrite Hfs. split; [done |].
      split; [done |]. intros _. split; [by apply Hall | done].
  - run. cbn [close emit]. eexists _, _, _. split; [reflexivity |]. cbn [trace fs].
    rewrite Htr, <- !app_assoc. split; [reflexivity |]. split; [exact Hfile |].
    split; [intros e' [= <-]; right; left; by apply Hexn |].
    exists written. rewrite Hfs. by repeat split.
Qed.

Lemma file_events_no_line evs l :
  Forall (fun ev => is_file_event ev = true) evs -> ~ In (EPrint l) evs.
Proof.
  intros Hall Hin. rewrite List.Forall_forall in Hall. by apply Hall in Hin.
Qed.

Lemma file_events_of_none evs :
  Forall (fun ev => is_file_event ev = false) evs -> file_events_of evs = [].
Proof.
  induction 1 as [|ev evs Hev _ IH]; [done |].
  unfold file_events_of in *. cbn [List.filter]. by rewrite Hev.
Qed.

(** One attempt, whatever the collaborators do. *)
Lemma attempt_body_summary pdf_url save_path retries attempt w :
  exists r w' evs,
    attempt_body env pdf_url save_path retries attempt w = (r, w') /\
    trace w' = trace w ++ evs /\
    gets_of evs = [pdf_request pdf_url] /\
    (r = Returned Next ->
     evs = forbidden_events pdf_url retries attempt /\ fs w' = fs w /\
     exists response,
       requests_get env (calls w) (pdf_request pdf_url) = Returned response /\
       status_code response = 403) /\
    (r <> Returned Next -> sleeps_of evs = []) /\
    (forall q, q <> save_path -> fs w' !! q = fs w !! q) /\
    (forall e, r = Raised e -> download_raises env e) /\
    ((forall response,
        requests_get env (calls w) (pdf_request pdf_url) = Returned response ->
        status_code response <> 200) ->
     fs w' = fs w /\ file_events_of evs = []) /\
    (In (EPrint (LDownloaded save_path)) evs ->
     r = Returned Return /\
     exists response,
       requests_get env (calls w) (pdf_request pdf_url) = Returned response /\
       status_code response = 200 /\
       snd (iter_content response 1024) = None /\
       fs w' = <[save_path := concat (fst (iter_content response 1024))]> (fs w)) /\
    (r = Returned Return -> In (EPrint (LDownloaded save_path)) evs).
Proof.
  destruct (requests_get env (calls w) (pdf_request pdf_url)) as [response|e] eqn:Hget.
  2: { eexists _, _, _. split; [exact (attempt_raise env _ _ _ _ _ _ Hget) |].
       split; [reflexivity |]. split; [reflexivity |].
       split; [intros [=] |]. split; [done |]. split; [done |].
       split; [intros e' [= <-]; left; eauto |]. split; [done |].
       split; [|intros [=]]. cbn. intros [[=]|[]]. }
  destruct (decide (status_code response = 200)) as [H200|H200];
    [|destruct (decide (status_code response = 403)) as [H403|H403]].
  - assert (Hrun := eq_refl (attempt_body env pdf_url save_path retries attempt w)).
    unfold attempt_body at 2 in Hrun.
    rewrite bind_run, get_run, Hget, H200 in Hrun. cbn [Z.eqb Pos.eqb] in Hrun.
    rewrite bind_run in Hrun.
    destruct (save_body_cases save_path response (extend w [EGet (pdf_request pdf_url)]))
      as (r1 & w1 & evs1 & Hsave & Htr & Hfile & Hexn & Hopen).
    rewrite Hsave in Hrun. cbn [extend trace fs] in Htr, Hopen.
    rewrite <- app_assoc in Htr. destruct (file_events_quiet _ Hfile) as [Hg Hs].
    assert (Hframe : forall q, q <> save_path -> fs w1 !! q = fs w !! q).
    { intros q Hq. destruct (open_wb env save_path).
      - destruct Hopen as [_ ->]. done.
      - destruct Hopen as (written & -> & _). by apply lookup_insert_ne. }
    destruct r1 as [[]|e].
    + revert Hrun. run. intros Hrun.
      eexists _, _, (EGet (pdf_request pdf_url) :: evs1 ++ [EPrint (LDownloaded save_path)]).
      split; [exact Hrun |]. cbn [extend trace fs]. rewrite Htr, <- app_assoc.
      split; [done |].
      split. { change (gets_of (EGet ?q :: ?l)) with (q :: gets_of l).
               by rewrite gets_of_app, Hg. }
      split; [intros [=] |].
      split. { intros _. change (sleeps_of (EGet ?q :: ?l)) with (sleeps_of l).
               by rewrite sleeps_of_app, Hs. }
      split; [done |]. split; [intros e [=] |].
      split; [intros Hno; by destruct (Hno response eq_refl) |].
      split; [|intros _; right; apply in_or_app; right; by left].
      intros _. split; [done |]. exists response.
      destruct (open_wb env save_path); [by destruct Hopen |].
      destruct Hopen as (written & Hfs & _ & Hall). destruct (Hall eq_refl) as [-> Hstream].
      done.
    + revert Hrun. run. intros Hrun.
      eexists _, _, (EGet (pdf_request pdf_url) :: evs1).
      split; [exact Hrun |]. split; [done |].
      split. { change (gets_of (EGet ?q :: ?l)) with (q :: gets_of l). by rewrite Hg. }
      split; [intros [=] |]. split; [done |]. split; [done |].
      split. { intros e' [= <-]. destruct (Hexn e eq_refl) as [Ho|[(cur & chunk & Hw)|Hst]].
               - right. left. eauto.
               - right. right. left. eauto.
               - right. right. right. eauto 10. }
      split; [intros Hno; by destruct (Hno response eq_refl) |].
      split; [|intros [=]].
      intros [[=]|Hin]. by apply file_events_no_line in Hin.
  - eexists _, _, _. split; [exact (attempt_403 env _ _ _ _ _ _ Hget H403) |].
    split; [reflexivity |]. split; [reflexivity |].
    split; [intros _; split; [done |]; split; [done |]; eauto |].
    split; [done |]. split; [done |]. split; [intros e [=] |]. split; [done |].
    split; [|intros [=]]. cbn. intros [[=]|[[=]|[[=]|[]]]].
  - eexists _, _, _. split; [exact (attempt_other env _ _ _ _ _ _ Hget H200 H403) |].
    split; [reflexivity |]. split; [reflexivity |].
    split; [intros [=] |]. split; [done |]. split; [done |].
    split; [intros e [=] |]. split; [done |].
    split; [|intros [=]]. cbn. intros [[=]|[[=]|[]]].
Qed.

(** The loop over the attempts, whatever the collaborators do. *)
Lemma download_attempts_summary pdf_url save_path retries attempts : forall w,
  exists r w' evs k j,
    for_ctl (attempt_body env pdf_url save_path retries) attempts w = (r, w') /\
    trace w' = trace w ++ evs /\
    gets_of evs = replicate k (pdf_request pdf_url) /\
    sleeps_of evs = replicate j 2 /\
    (k <= length attempts)%nat /\
    (attempts <> [] -> (1 <= k)%nat) /\
    (j <= k <= S j)%nat /\
    (forall q, q <> save_path -> fs w' !! q = fs w !! q) /\
    (forall e, r = Raised e -> download_raises env e) /\
    ((forall n response,
        requests_get env n (pdf_request pdf_url) = Returned response ->
        status_code response <> 200) ->
     fs w' = fs w /\ file_events_of evs = []) /\
    (In (EPrint (LDownloaded save_path)) evs ->
     r = Returned Return /\
     exists n response,
       requests_get env n (pdf_request pdf_url) = Returned response /\
       status_code response = 200 /\
       snd (iter_content response 1024) = None /\
       fs w' = <[save_path := concat (fst (iter_content response 1024))]> (fs w)) /\
    (r = Returned Return -> In (EPrint (LDownloaded save_path)) evs).
Proof.
  induction attempts as [|attempt attempts IH]; intros w.
  - exists (Returned Next), w, [], 0%nat, 0%nat. rewrite app_nil_r. cbn.
    repeat split; try done; try lia.
  - rewrite for_ctl_cons.
    destruct (attempt_body_summary pdf_url save_path retries attempt w)
      as (r1 & w1 & evs1 & Hrun & Htr & Hg & Hnext & Hquiet & Hframe & Hexn & Hno & Hline & Hret).
    rewrite Hrun.
    assert (Hstop : r1 <> Returned Next ->
              exists r w' evs k j,
                (r1, w1) = (r, w') /\
                trace w' = trace w ++ evs /\
                gets_of evs = replicate k (pdf_request pdf_url) /\
                sleeps_of evs = replicate j 2 /\
                (k <= length (attempt :: attempts))%nat /\
                (attempt :: attempts <> [] -> (1 <= k)%nat) /\
                (j <= k <= S j)%nat /\
                (forall q, q <> save_path -> fs w' !! q = fs w !! q) /\
                (forall e, r = Raised e -> download_raises env e) /\
                ((forall n response,
                    requests_get env n (pdf_request pdf_url) = Returned response ->
                    status_code response <> 200) ->
                 fs w' = fs w /\ file_events_of evs = []) /\
                (In (EPrint (LDownloaded save_path)) evs ->
                 r = Returned Return /\
                 exists n response,
                   requests_get env n (pdf_request pdf_url) = Returned response /\
                   status_code response = 200 /\
                   snd (iter_content response 1024) = None /\
                   fs w' = <[save_path := concat (fst (iter_content response 1024))]> (fs w)) /\
                (r = Returned Return -> In (EPrint (LDownloaded save_path)) evs)).
    { intros Hr. exists r1, w1, evs1, 1%nat, 0%nat. cbn [length replicate].
      split; [done |]. split; [done |]. split; [done |]. split; [by apply Hquiet |].
      split; [lia |]. split; [done |]. split; [lia |]. split; [done |]. split; [done |].
      split; [intros Hall; apply Hno; intros response; apply Hall |].
      split; [|done]. intros Hin. destruct (Hline Hin) as (-> & response & ?). eauto. }
    destruct r1 as [[]|e]; [|by apply Hstop..].
    destruct (Hnext eq_refl) as (-> & Hfs1 & response1 & Hget1 & H403).
    destruct (IH w1)
      as (r & w' & evs & k & j & Hrun2 & Htr2 & Hg2 & Hs2 & Hk & _ & Hj & Hframe2 & Hexn2
          & Hno2 & Hline2 & Hret2).
    exists r, w', (forbidden_events pdf_url retries attempt ++ evs), (S k), (S j).
    rewrite Hrun2, Htr2, Htr, <- app_assoc, gets_of_app, sleeps_of_app, Hg, Hg2, Hs2.
    cbn [length]. split; [done |]. split; [done |]. split; [done |]. split; [done |].
    split; [lia |]. split; [lia |]. split; [lia |].
    split; [intros q Hq; by rewrite (Hframe2 q Hq), (Hframe q Hq) |].
    split; [done |].
    split. { intros Hall. destruct (Hno2 Hall) as [-> Hf]. rewrite file_events_of_app, Hf.
             by rewrite Hfs1. }
    split; [|intros Hr; apply in_or_app; right; by apply Hret2].
    intros [Hin|Hin]%in_app_or.
    { cbn in Hin. by destruct Hin as [[=]|[[=]|[[=]|[]]]]. }
    destruct (Hline2 Hin) as (-> & n & response & Hget & H200 & Hstream & Hfs).
    split; [done |]. exists n, response. by rewrite Hfs, Hfs1.
Qed.

(** What the [except] clause makes of the outcome of the loop. *)
Lemma settle_cases (r : Result ctl) w1 :
  (exists c, r = Returned c /\ settle env (r, w1) = (Returned tt, w1)) \/
  (exists e, r = Raised e /\ isinstance_Exception e = false /\
             settle env (r, w1) = (Raised e, w1)) \/
  (exists e, r = Raised e /\ isinstance_Exception e = true /\
             handler_print env e = None /\
             settle env (r, w1) = (Returned tt, extend w1 [EPrint (LError e)])) \/
  (exists e e', r = Raised e /\ isinstance_Exception e = true /\
                handler_print env e = Some e' /\
                settle env (r, w1) = (Raised e', w1)).
Proof.
  destruct r as [c|e]; cbn [settle]; [left; eauto |].
  destruct (isinstance_Exception e) eqn:He; [|right; left; eauto].
  destruct (handler_print env e) as [e'|] eqn:Hprint.
  - right. right. right. eauto 10.
  - right. right. left. eauto 10.
Qed.

End DownloadCases.

(** [download_pdf] as a whole, whatever the collaborators do. *)
Lemma download_pdf_summary env pdf_url save_path retries w :
  exists r w' evs k j,
    download_pdf env pdf_url save_path retries w = (r, w') /\
    trace w' = trace w ++ evs /\
    gets_of evs = replicate k (pdf_request pdf_url) /\
    sleeps_of evs = replicate j 2 /\
    (k <= length (range retries))%nat /\
    (range retries <> [] -> (1 <= k)%nat) /\
    (j <= k <= S j)%nat /\
    (forall q, q <> save_path -> fs w' !! q = fs w !! q) /\
    (forall e, r = Raised e ->
       (download_raises env e /\ isinstance_Exception e = false) \/
       (exists e0, handler_print env e0 = Some e)) /\
    ((forall n response,
        requests_get env n (pdf_request pdf_url) = Returned response ->
        status_code response <> 200) ->
     fs w' = fs w /\ file_events_of evs = []) /\
    (In (EPrint (LDownloaded save_path)) evs ->
     r = Returned tt /\
     exists n response,
       requests_get env n (pdf_request pdf_url) = Returned response /\
       status_code response = 200 /\
       snd (iter_content response 1024) = None /\
       fs w' = <[save_path := concat (fst (iter_content response 1024))]> (fs w)).
Proof.
  rewrite download_pdf_run. unfold download_attempts.
  destruct (download_attempts_summary env pdf_url save_path retries (range retries) w)
    as (r & w1 & evs & k & j & Hrun & Htr & Hg & Hs & Hk & Hk1 & Hj & Hframe & Hexn
        & Hno & Hline & _).
  rewrite Hrun.
  destruct (settle_cases env r w1)
    as [(c & -> & ->)|[(e & -> & He & ->)|[(e & -> & He & Hprint & ->)
                                          |(e & e' & -> & He & Hprint & ->)]]].
  - exists (Returned tt), w1, evs, k, j. split_and!; try done; try lia.
    intros Hin. by destruct (Hline Hin) as (_ & ?).
  - exists (Raised e), w1, evs, k, j. split_and!; try done; try lia.
    + intros e' [= <-]. left. split; [by apply Hexn | done].
    + intros Hin. by destruct (Hline Hin) as ([=] & _).
  - exists (Returned tt), (extend w1 [EPrint (LError e)]), (evs ++ [EPrint (LError e)]), k, j.
    cbn [extend trace fs]. rewrite Htr, <- app_assoc, gets_of_app, sleeps_of_app, Hg, Hs.
    split_and!; try done; try lia; try (by rewrite app_nil_r).
    + intros Hall. destruct (Hno Hall) as [-> Hf]. rewrite file_events_of_app, Hf. done.
    + intros [Hin|[[=]|[]]]%in_app_or. by destruct (Hline Hin) as ([=] & _).
  - exists (Raised e'), w1, evs, k, j. split_and!; try done; try lia.
    + intros e1 [= <-]. right. eauto.
    + intros Hin. by destruct (Hline Hin) as ([=] & _).
Qed.

(** X1.  Whatever the transport, the disk and the stream do,
    [download_pdf] makes at most [retries] transport calls (none when
    [retries <= 0], at least one otherwise), every one of them the same
    request for [pdf_url]; every sleep lasts 2, and there are as many
    sleeps as calls, or one less. *)
Theorem download_pdf_call_budget env pdf_url save_path retries w :
  exists r w' evs k j,
    download_pdf env pdf_url save_path retries w = (r, w') /\
    trace w' = trace w ++ evs /\
    gets_of evs = replicate k (pdf_request pdf_url) /\
    sleeps_of evs = replicate j 2 /\
    Z.of_nat k <= Z.max 0 retries /\
    (0 < retries -> (1 <= k)%nat) /\
    (j <= k <= S j)%nat.
Proof.
  destruct (download_pdf_summary env pdf_url save_path retries w)
    as (r & w' & evs & k & j & Hrun & Htr & Hg & Hs & Hk & Hk1 & Hj & _).
  exists r, w', evs, k, j. unfold range in Hk, Hk1. rewrite length_seqZ in Hk.
  repeat split; try done; try lia.
  intros Hpos. apply Hk1. rewrite seqZ_cons by done. done.
Qed.

(** X2.  [download_pdf] leaves every file other than [save_path] as it
    was, on every path. *)
Theorem download_pdf_other_files env pdf_url save_path retries w q :
  q <> save_path ->
  fs (snd (download_pdf env pdf_url save_path retries w)) !! q = fs w !! q.
Proof.
  intros Hq.
  destruct (download_pdf_summary env pdf_url save_path retries w)
    as (r & w' & evs & k & j & Hrun & _ & _ & _ & _ & _ & _ & Hframe & _).
  rewrite Hrun. by apply Hframe.
Qed.

Lemma download_pdf_other_files_witness :
  fs (snd (download_pdf (Sample.env (Sample.scripted [403; 200]) None None)
             "u" "p" 3 Sample.w0)) !! "other"
  = fs Sample.w0 !! "other".
Proof. apply download_pdf_other_files. discriminate. Defined.

(** X3.  When the transport never answers this request with status 200,
    [download_pdf] does not touch the disk: no open, no write, and the
    file system is unchanged. *)
Theorem download_pdf_without_200 env pdf_url save_path retries w :
  (forall n response,
     requests_get env n (pdf_request pdf_url) = Returned response ->
     status_code response <> 200) ->
  exists r w' evs,
    download_pdf env pdf_url save_path retries w = (r, w') /\
    trace w' = trace w ++ evs /\
    file_events_of evs = [] /\
    fs w' = fs w.
Proof.
  intros Hno.
  destruct (download_pdf_summary env pdf_url save_path retries w)
    as (r & w' & evs & k & j & Hrun & Htr & _ & _ & _ & _ & _ & _ & _ & Hdisk & _).
  exists r, w', evs. destruct (Hdisk Hno). done.
Qed.

Lemma scripted_403_500_without_200 n response :
  Sample.scripted [403; 500] n (pdf_request "u") = Returned response ->
  status_code response <> 200.
Proof.
  unfold Sample.scripted. destruct n as [|[|[|n]]]; cbn; intros [= <-]; done.
Qed.

Lemma download_pdf_without_200_witness :
  exists r w' evs,
    download_pdf (Sample.env (Sample.scripted [403; 500]) None None) "u" "p" 3 Sample.w0
      = (r, w') /\
    trace w' = trace Sample.w0 ++ evs /\
    file_events_of evs = [] /\
    fs w' = fs Sample.w0.
Proof.
  apply (download_pdf_without_200 (Sample.env (Sample.scripted [403; 500]) None None)).
  exact scripted_403_500_without_200.
Defined.




Lemma forbidden_run env pdf_url save_path retries attempts : forall w,
  (forall i, (i < length attempts)%nat ->
     exists response,
       requests_get env (calls w + i) (pdf_request pdf_url) = Returned response /\
       status_code response = 403) ->
  for_ctl (attempt_body env pdf_url save_path retries) attempts w =
    (Returned Next, extend w (flat_map (forbidden_events pdf_url retries) attempts)).
Proof.
  induction attempts as [|attempt attempts IH]; intros w Hall.
  - cbn. by rewrite extend_nil.
  - destruct (Hall 0%nat) as (response & Hget & H403); [cbn; lia |].
    rewrite Nat.add_0_r in Hget.
    rewrite for_ctl_cons, (attempt_403 env _ _ _ _ _ _ Hget H403).
    fold (forbidden_events pdf_url retries attempt). rewrite IH.
    + by rewrite extend_extend.
    + intros i Hi. rewrite calls_extend. cbn [forbidden_events gets_of omap list_omap length].
      destruct (Hall (S i)) as (r & Hr & Hs); [cbn; lia |].
      exists r. split; [|done]. rewrite <- Hr. f_equal. cbn. lia.
Qed.

Lemma forbidden_counts pdf_url retries attempts :
  gets_of (flat_map (forbidden_events pdf_url retries) attempts)
    = replicate (length attempts) (pdf_request pdf_url) /\
  sleeps_of (flat_map (forbidden_events pdf_url retries) attempts)
    = replicate (length attempts) 2 /\
  file_events_of (flat_map (forbidden_events pdf_url retries) attempts) = [].
Proof.
  induction attempts as [|attempt attempts (IHg & IHs & IHf)]; [done |].
  cbn [flat_map]. rewrite gets_of_app, sleeps_of_app, file_events_of_app, IHg, IHs, IHf.
  done.
Qed.

(** X5.  For any number of attempts: when every one of the [retries]
    calls is answered with 403, [download_pdf] makes exactly [retries]
    calls and sleeps after each of them, the last one included; it
    writes nothing and returns [None]. *)
Theorem download_pdf_all_403 env pdf_url save_path retries w :
  (forall i, (i < Z.to_nat retries)%nat ->
     exists response,
       requests_get env (calls w + i) (pdf_request pdf_url) = Returned response /\
       status_code response = 403) ->
  exists evs,
    download_pdf env pdf_url save_path retries w = (Returned tt, extend w evs) /\
    evs = flat_map (forbidden_events pdf_url retries) (range retries) /\
    gets_of evs = replicate (Z.to_nat retries) (pdf_request pdf_url) /\
    sleeps_of evs = replicate (Z.to_nat retries) 2 /\
    file_events_of evs = [].
Proof.
  intros Hall. rewrite download_pdf_run. unfold download_attempts.
  rewrite forbidden_run by (unfold range; by rewrite length_seqZ).
  cbn [settle]. eexists. split; [done |]. split; [done |].
  destruct (forbidden_counts pdf_url retries (range retries)) as (Hg & Hs & Hf).
  unfold range in *. rewrite length_seqZ in Hg, Hs. done.
Qed.

Lemma download_pdf_all_403_witness :
  exists evs,
    download_pdf (Sample.env (fun _ _ => Returned (Sample.response 403)) None None)
      "u" "p" 5 Sample.w0 = (Returned tt, extend Sample.w0 evs) /\
    evs = flat_map (forbidden_events "u" 5) (range 5) /\
    gets_of evs = replicate (Z.to_nat 5) (pdf_request "u") /\
    sleeps_of evs = replicate (Z.to_nat 5) 2 /\
    file_events_of evs = [].
Proof.
  apply (download_pdf_all_403
           (Sample.env (fun _ _ => Returned (Sample.response 403)) None None)).
  intros i _. exists (Sample.response 403). split; reflexivity.
Defined.

(** X6.  The success line is truthful: if [download_pdf] printed
    "PDF downloaded successfully" for [save_path], then some call was
    answered with status 200, its stream ended without an error, the
    file holds the whole streamed body, and the function returned. *)
Theorem download_pdf_success_line env pdf_url save_path retries w r w' evs :
  download_pdf env pdf_url save_path retries w = (r, w') ->
  trace w' = trace w ++ evs ->
  In (EPrint (LDownloaded save_path)) evs ->
  r = Returned tt /\
  exists n response,
    requests_get env n (pdf_request pdf_url) = Returned response /\
    status_code response = 200 /\
    snd (iter_content response 1024) = None /\
    fs w' = <[save_path := concat (fst (iter_content response 1024))]> (fs w).
Proof.
  intros Hrun Htr Hin.
  destruct (download_pdf_summary env pdf_url save_path retries w)
    as (r0 & w0 & evs0 & k & j & Hrun0 & Htr0 & _ & _ & _ & _ & _ & _ & _ & _ & Hline).
  rewrite Hrun in Hrun0. injection Hrun0 as <- <-.
  rewrite Htr in Htr0. apply app_inv_head in Htr0 as <-. by apply Hline.
Qed.

Lemma download_pdf_success_line_witness :
  Returned tt = Returned tt /\
  exists n response,
    requests_get (Sample.env (Sample.scripted [403; 200]) None None) n (pdf_request "u")
      = Returned response /\
    status_code response = 200 /\
    snd (iter_content response 1024) = None /\
    fs (snd (download_pdf (Sample.env (Sample.scripted [403; 200]) None None)
               "u" "p" 3 Sample.w0))
      = <["p" := concat (fst (iter_content response 1024))]> (fs Sample.w0).
Proof.
  apply (download_pdf_success_line
           (Sample.env (Sample.scripted [403; 200]) None None) "u" "p" 3 Sample.w0
           (Returned tt)
           (snd (download_pdf (Sample.env (Sample.scripted [403; 200]) None None)
                   "u" "p" 3 Sample.w0))
           (trace (snd (download_pdf (Sample.env (Sample.scripted [403; 200]) None None)
                          "u" "p" 3 Sample.w0))));
    [reflexivity | reflexivity |].
  vm_compute. do 8 right. left. reflexivity.
Defined.

(** X7.  A stream that breaks after a 200 answer: the chunks received
    before the break are on disk, so the file is a truncated body; the
    error is printed instead of the success line, there is no second
    attempt, and the function returns [None] like after a success.  If
    the print of the error itself raises, the file and the events up to
    the close are the same and that exception leaves the function. *)
Theorem download_pdf_broken_stream env pdf_url save_path retries w response e :
  0 < retries ->
  requests_get env (calls w) (pdf_request pdf_url) = Returned response ->
  status_code response = 200 ->
  disk_ok env save_path ->
  snd (iter_content response 1024) = Some e ->
  isinstance_Exception e = true ->
  download_pdf env pdf_url save_path retries w =
    match handler_print env e with
    | None =>
        (Returned tt,
         {| trace := trace w ++ EGet (pdf_request pdf_url)
                       :: save_events save_path (fst (iter_content response 1024))
                       ++ [EPrint (LError e)];
            fs := <[save_path := concat (fst (iter_content response 1024))]> (fs w) |})
    | Some e' =>
        (Raised e',
         {| trace := trace w ++ EGet (pdf_request pdf_url)
                       :: save_events save_path (fst (iter_content response 1024));
            fs := <[save_path := concat (fst (iter_content response 1024))]> (fs w) |})
    end.
Proof.
  intros Hpos Hget H200 [Hopen Hwrite] Hstream He.
  rewrite download_pdf_run. unfold download_attempts.
  rewrite (range_cons _ Hpos), for_ctl_cons. unfold attempt_body.
  rewrite bind_run, get_run, Hget, H200. cbn [Z.eqb Pos.eqb].
  unfold save_body, open_file. run. rewrite Hopen. run.
  unfold try_finally, write_stream. run.
  rewrite (write_chunks_ok env _ _ _ [] Hwrite) by apply lookup_insert_eq.
  rewrite Hstream. run. cbn [close emit trace fs extend app settle]. rewrite He.
  unfold save_events.
  destruct (handler_print env e); cbn [trace fs app];
    rewrite insert_insert_eq, <- !app_assoc; reflexivity.
Qed.

Lemma download_pdf_broken_stream_witness :
  download_pdf (Sample.env Faulty.broken_stream None None) "u" "p" 3 Sample.w0 =
    (Returned tt,
     {| trace := trace Sample.w0 ++ EGet (pdf_request "u")
                   :: save_events "p" (fst (iter_content Faulty.broken_response 1024))
                   ++ [EPrint (LError Faulty.reset)];
        fs := <["p" := concat (fst (iter_content Faulty.broken_response 1024))]>
                (fs Sample.w0) |}).
Proof.
  apply (download_pdf_broken_stream (Sample.env Faulty.broken_stream None None));
    [lia | reflexivity | reflexivity | split; [reflexivity | intros; reflexivity]
     | reflexivity | reflexivity].
Defined.

(** X8.  Once a 200 answer has come and the file has been opened, what
    was at [save_path] before is gone: whatever fails afterwards, the
    file holds a prefix of the streamed body. *)
Theorem download_pdf_truncates env pdf_url save_path retries w response :
  0 < retries ->
  requests_get env (calls w) (pdf_request pdf_url) = Returned response ->
  status_code response = 200 ->
  open_wb env save_path = None ->
  exists r w' written,
    download_pdf env pdf_url save_path retries w = (r, w') /\
    fs w' = <[save_path := written]> (fs w) /\
    written `prefix_of` concat (fst (iter_content response 1024)).
Proof.
  intros Hpos Hget H200 Hopen.
  rewrite download_pdf_run. unfold download_attempts.
  rewrite (range_cons _ Hpos), for_ctl_cons. unfold attempt_body.
  rewrite bind_run, get_run, Hget, H200. cbn [Z.eqb Pos.eqb]. rewrite bind_run.
  destruct (save_body_cases env save_path response (extend w [EGet (pdf_request pdf_url)]))
    as (r1 & w1 & evs1 & Hsave & Htr & _ & _ & Hcase).
  rewrite Hsave, Hopen in *. destruct Hcase as (written & Hfs & Hpre & _).
  cbn [extend fs] in Hfs.
  destruct r1 as [[]|e]; run.
  - eexists _, _, written. cbn [settle]. split; [done |]. by cbn [extend fs].
  - assert (Htr1 : trace w1 = trace w1 ++ []) by by rewrite app_nil_r.
    destruct (settle_quiet env w1 (Raised e) w1 [] Htr1) as (r' & w' & evs' & Hset & _ & Hfs' & _).
    exists r', w', written. rewrite Hset, Hfs'. done.
Qed.

Lemma download_pdf_truncates_witness :
  exists r w' written,
    download_pdf (Sample.env Faulty.broken_stream None None) "u" "p" 3 Sample.w0 = (r, w') /\
    fs w' = <["p" := written]> (fs Sample.w0) /\
    written `prefix_of` concat (fst (iter_content Faulty.broken_response 1024)).
Proof.
  apply (download_pdf_truncates (Sample.env Faulty.broken_stream None None));
    [lia | reflexivity | reflexivity | reflexivity].
Defined.

(** ** Further properties of scrape_pdf_links *)

Lemma lower_app a b : PyStr.lower (a +:+ b) = PyStr.lower a +:+ PyStr.lower b.
Proof.
  induction a as [|c a IH]; [done |].
  change (String (PyStr.lower_char c) (PyStr.lower (a +:+ b))
          = String (PyStr.lower_char c) (PyStr.lower a +:+ PyStr.lower b)).
  by rewrite IH.
Qed.

Lemma present_hrefs_In values h :
  In (Some h) values -> PyStr.truthy h = true -> In h (present_hrefs values).
Proof.
  intros Hin Htruthy. induction values as [|v values IH]; [done |].
  rewrite present_hrefs_cons. destruct Hin as [->|Hin].
  - rewrite Htruthy. by left.
  - destruct v as [h'|]; [destruct (PyStr.truthy h') |]; try right; by apply IH.
Qed.

(** X9.  The ".pdf" test is a substring test on the lowercase href, not
    a test of its ending: an anchor whose href has ".pdf" somewhere, in
    any letter case, and does not contain the excluded domain, is
    returned, whatever follows the ".pdf". *)
Theorem scrape_pdf_links_pdf_anywhere env url w values a ext b :
  chrome env = None ->
  driver_get env url = None ->
  wait_until env = None ->
  find_elements env = Returned (map Returned values) ->
  In (Some (a +:+ ext +:+ b)) values ->
  PyStr.lower ext = ".pdf" ->
  ~ Substring "consumereports.org" (a +:+ ext +:+ b) ->
  exists links w',
    scrape_pdf_links env url w = (Returned links, w') /\
    In (a +:+ ext +:+ b) links.
Proof.
  intros Hchrome Hnav Hwait Hfind Hin Hext Hdomain.
  rewrite (scrape_pdf_links_ok env url _ w Hchrome Hnav Hwait Hfind).
  eexists _, _. split; [done |]. apply filter_In. split.
  - apply present_hrefs_In; [done |].
    destruct a as [|c a]; [|done]. destruct ext as [|c ext]; [discriminate | done].
  - apply is_pdf_link_spec. split; [|done].
    exists (PyStr.lower a), (PyStr.lower b). by rewrite !lower_app, Hext.
Qed.

Lemma scrape_pdf_links_pdf_anywhere_witness :
  exists links w',
    scrape_pdf_links
      (Sample.page ["http://a.example/index.html"; "http://a.example/get.PDF.php?id=7"])
      "http://a.example/" Sample.w0 = (Returned links, w') /\
    In ("http://a.example/get" +:+ ".PDF" +:+ ".php?id=7") links.
Proof.
  apply (scrape_pdf_links_pdf_anywhere
           (Sample.page ["http://a.example/index.html"; "http://a.example/get.PDF.php?id=7"])
           "http://a.example/" Sample.w0
           [Some "http://a.example/index.html"; Some "http://a.example/get.PDF.php?id=7"]);
    [reflexivity | reflexivity | reflexivity | reflexivity
     | right; left; reflexivity | reflexivity | apply contains_false; reflexivity].
Defined.

Lemma for_acc_app {A S} (body : A -> S -> M S) l1 l2 s w :
  for_acc body (l1 ++ l2) s w =
    match for_acc body l1 s w with
    | (Returned s', w') => for_acc body l2 s' w'
    | (Raised e, w') => (Raised e, w')
    end.
Proof.
  revert s w. induction l1 as [|x l1 IH]; intros s w; [done |].
  cbn [app for_acc]. rewrite !bind_run. destruct (body x s w) as [[s'|e] w']; [apply IH | done].
Qed.

(** X10.  An anchor whose [get_attribute] raises ends the scrape: the
    exception reaches the caller after the browser is quit, the links
    collected from the anchors before it are not returned, and the
    anchors after it are not looked at. *)
Theorem scrape_pdf_links_failing_anchor env url w values e rest :
  chrome env = None ->
  driver_get env url = None ->
  wait_until env = None ->
  find_elements env = Returned (map Returned values ++ Raised e :: rest) ->
  scrape_pdf_links env url w =
    (Raised e,
     extend w (ELaunch chrome_options
                 :: [ENavigate url; EWait 10; EFindElements]
                 ++ href_lines (present_hrefs values)
                 ++ [EQuit])).
Proof.
  intros Hchrome Hnav Hwait Hfind. unfold scrape_pdf_links. run. rewrite Hchrome. run.
  unfold try_finally, scrape_body. run. rewrite Hnav. run. rewrite Hwait. run.
  rewrite Hfind. run. rewrite for_acc_app, link_loop_ok.
  cbn [for_acc]. rewrite bind_run. unfold link_body at 1. run.
  unfold quit. rewrite emit_run, !extend_extend. done.
Qed.

Lemma scrape_pdf_links_failing_anchor_witness :
  scrape_pdf_links Faulty.stale_page "http://a.example/" Sample.w0 =
    (Raised Faulty.stale,
     extend Sample.w0
       (ELaunch chrome_options
          :: [ENavigate "http://a.example/"; EWait 10; EFindElements]
          ++ href_lines (present_hrefs [Some "http://a.example/a.pdf"; None])
          ++ [EQuit])).
Proof.
  apply (scrape_pdf_links_failing_anchor Faulty.stale_page "http://a.example/" Sample.w0
           [Some "http://a.example/a.pdf"; None] Faulty.stale
           (map Returned [Some "http://a.example/b.pdf"])); reflexivity.
Defined.

Lemma page_events_quiet evs :
  Forall (fun ev => is_page_event ev = true) evs ->
  gets_of evs = [] /\ sleeps_of evs = [] /\ file_events_of evs = [].
Proof.
  induction 1 as [|ev evs Hev _ (IHg & IHs & IHf)]; [done |].
  destruct ev; try discriminate; by repeat split.
Qed.

Lemma link_lines_page links :
  Forall (fun ev => is_page_event ev = true)
         (map (fun pdf => EPrint (LLink pdf)) links).
Proof. induction links; by constructor. Qed.

(** ** Further properties of main *)

Lemma split_app_sep sep a b :
  PyStr.split sep (a +:+ String sep b) = PyStr.split sep a ++ PyStr.split sep b.
Proof.
  induction a as [|c a IH]; cbn [PyStr.split].
  - change (EmptyString +:+ String sep b) with (String sep b). cbn [PyStr.split].
    by rewrite Ascii.eqb_refl.
  - change (String c a +:+ String sep b) with (String c (a +:+ String sep b)).
    cbn [PyStr.split]. rewrite IH. destruct (Ascii.eqb c sep); [done |].
    destruct (PyStr.split sep a) as [|f fs] eqn:E; [by destruct (split_nonempty sep a) |].
    done.
Qed.

Lemma split_no_sep sep s :
  PyStr.contains (String sep EmptyString) s = false -> PyStr.split sep s = [s].
Proof.
  induction s as [|c s IH]; [done |]. cbn [PyStr.contains PyStr.startswith PyStr.split].
  intros [Hhead Htail]%orb_false_elim. rewrite (IH Htail).
  rewrite Ascii.eqb_sym. destruct (Ascii.eqb sep c); [by destruct s | done].
Qed.

Lemma download_link_name env prefix seg w :
  ~ Substring "/" seg ->
  download_link env (prefix +:+ "/" +:+ seg) tt w =
    download_pdf env (prefix +:+ "/" +:+ seg) (os_path_join env save_dir seg)
      default_retries w.
Proof.
  intros Hseg%contains_false. unfold download_link, last_item.
  change (prefix +:+ "/" +:+ seg) with (prefix +:+ String "/" seg).
  rewrite split_app_sep, (split_no_sep _ _ Hseg), last_snoc, bind_run. reflexivity.
Qed.

(** X12.  The file name is decided by what follows the last ['/'] alone:
    a link [prefix/seg], with no ['/'] in [seg], is downloaded to
    [os.path.join(save_dir, seg)] with three attempts; for a link that
    ends in ['/'] the segment is empty. *)
Theorem main_file_name env prefix seg w :
  ~ Substring "/" seg ->
  for_acc (download_link env) [prefix +:+ "/" +:+ seg] tt w =
    download_pdf env (prefix +:+ "/" +:+ seg) (os_path_join env save_dir seg) 3 w.
Proof.
  intros Hseg. cbn [for_acc]. rewrite bind_run, (download_link_name _ _ _ _ Hseg).
  by destruct (download_pdf _ _ _ _ w) as [[[]|e] w'].
Qed.

Lemma main_file_name_witness :
  for_acc (download_link (Sample.env (Sample.scripted [200]) None None))
    ["http://a.example/docs.pdf" +:+ "/" +:+ ""] tt Sample.w0 =
  download_pdf (Sample.env (Sample.scripted [200]) None None)
    ("http://a.example/docs.pdf" +:+ "/" +:+ "")
    (os_path_join (Sample.env (Sample.scripted [200]) None None) save_dir "") 3 Sample.w0.
Proof. apply main_file_name. apply contains_false. reflexivity. Defined.

Lemma save_events_quiet path chunks :
  gets_of (save_events path chunks) = [] /\ sleeps_of (save_events path chunks) = [].
Proof.
  apply file_events_quiet. unfold save_events. constructor; [done |].
  apply Forall_app. split; [|by repeat constructor].
  induction (List.filter nonempty chunks); by constructor.
Qed.

Lemma download_pdf_200_ok env pdf_url save_path w response :
  requests_get env (calls w) (pdf_request pdf_url) = Returned response ->
  status_code response = 200 ->
  disk_ok env save_path ->
  snd (iter_content response 1024) = None ->
  exists w',
    download_pdf env pdf_url save_path default_retries w = (Returned tt, w') /\
    calls w' = S (calls w) /\
    fs w' = <[save_path := concat (fst (iter_content response 1024))]> (fs w).
Proof.
  intros Hget H200 Hdisk Hstream. rewrite download_pdf_run. unfold download_attempts.
  rewrite range_default, for_ctl_cons,
    (attempt_200_ok env _ _ _ _ _ _ Hget H200 Hdisk Hstream).
  cbn [settle]. eexists. split; [done |]. split; [|done].
  unfold calls. cbn [trace]. rewrite gets_of_app.
  change (gets_of (EGet ?q :: ?l)) with (q :: gets_of l).
  rewrite gets_of_app. destruct (save_events_quiet save_path (fst (iter_content response 1024)))
    as [-> _].
  rewrite length_app. cbn. lia.
Qed.

(** X13.  Two links with the same final segment are saved under the same
    name: when both downloads succeed, the second overwrites the first,
    and the file holds the body of the second link only. *)
Theorem main_same_name_overwrites env prefix1 prefix2 seg w response1 response2 :
  ~ Substring "/" seg ->
  requests_get env (calls w) (pdf_request (prefix1 +:+ "/" +:+ seg)) = Returned response1 ->
  status_code response1 = 200 ->
  snd (iter_content response1 1024) = None ->
  requests_get env (S (calls w)) (pdf_request (prefix2 +:+ "/" +:+ seg))
    = Returned response2 ->
  status_code response2 = 200 ->
  snd (iter_content response2 1024) = None ->
  disk_ok env (os_path_join env save_dir seg) ->
  exists w',
    for_acc (download_link env) [prefix1 +:+ "/" +:+ seg; prefix2 +:+ "/" +:+ seg] tt w
      = (Returned tt, w') /\
    fs w' = <[os_path_join env save_dir seg := concat (fst (iter_content response2 1024))]>
              (fs w).
Proof.
  intros Hseg Hget1 Hst1 Hstream1 Hget2 Hst2 Hstream2 Hdisk.
  cbn [for_acc]. rewrite bind_run, (download_link_name _ _ _ _ Hseg).
  destruct (download_pdf_200_ok env _ _ w response1 Hget1 Hst1 Hdisk Hstream1)
    as (w1 & -> & Hcalls & Hfs1).
  rewrite bind_run, (download_link_name _ _ _ _ Hseg). rewrite <- Hcalls in Hget2.
  destruct (download_pdf_200_ok env _ _ w1 response2 Hget2 Hst2 Hdisk Hstream2)
    as (w2 & -> & _ & Hfs2).
  exists w2. split; [done |]. by rewrite Hfs2, Hfs1, insert_insert_eq.
Qed.

Lemma main_same_name_overwrites_witness :
  exists w',
    for_acc (download_link (Sample.env (Sample.scripted [200; 200]) None None))
      ["http://a.example/2023" +:+ "/" +:+ "report.pdf";
       "http://a.example/2024" +:+ "/" +:+ "report.pdf"] tt Sample.w0
      = (Returned tt, w') /\
    fs w' = <[os_path_join (Sample.env (Sample.scripted [200; 200]) None None) save_dir
                "report.pdf" := concat (fst (iter_content (Sample.response 200) 1024))]>
              (fs Sample.w0).
Proof.
  apply (main_same_name_overwrites (Sample.env (Sample.scripted [200; 200]) None None)
           "http://a.example/2023" "http://a.example/2024" "report.pdf" Sample.w0
           (Sample.response 200) (Sample.response 200));
    [apply contains_false; reflexivity | reflexivity | reflexivity | reflexivity
     | reflexivity | reflexivity | reflexivity | split; [reflexivity | intros; reflexivity]].
Defined.

Lemma href_lines_page hrefs :
  Forall (fun ev => is_page_event ev = true) (href_lines hrefs).
Proof.
  induction hrefs as [|h hrefs IH]; [constructor |].
  cbn [href_lines flat_map]. destruct (is_pdf_link h); by repeat constructor.
Qed.

Lemma scrape_events_page url hrefs :
  Forall (fun ev => is_page_event ev = true) (scrape_events url hrefs).
Proof.
  unfold scrape_events. repeat (apply Forall_app; split);
    [by repeat constructor | apply href_lines_page | by repeat constructor
     | apply link_lines_page].
Qed.

(** X14.  When no anchor of the page passes the filter, [main] prints
    that no link was found and returns: no transport call, no file
    event, and the file system as it was. *)
Theorem main_no_links env w url values :
  console_input env = Returned url ->
  chrome env = None ->
  driver_get env url = None ->
  wait_until env = None ->
  find_elements env = Returned (map Returned values) ->
  List.filter is_pdf_link (present_hrefs values) = [] ->
  exists evs,
    main env w = (Returned tt, extend w evs) /\
    evs = EInput "Enter the URL to scrape PDF links from: "
            :: ELaunch chrome_options
            :: scrape_events url (present_hrefs values)
            ++ [EQuit; EPrint LNoLinks] /\
    gets_of evs = [] /\
    file_events_of evs = [].
Proof.
  intros Hinput Hchrome Hnav Hwait Hfind Hnone. unfold main. run. rewrite Hinput. run.
  rewrite (scrape_pdf_links_ok env url _ _ Hchrome Hnav Hwait Hfind), Hnone. run.
  rewrite !extend_extend. eexists. split; [done |]. cbn [app].
  split; [by rewrite <- app_assoc |].
  destruct (page_events_quiet _ (scrape_events_page url (present_hrefs values)))
    as (Hg & _ & Hf).
  change (EInput ?p :: ELaunch ?o :: ?l) with ([EInput p; ELaunch o] ++ l).
  by rewrite !gets_of_app, !file_events_of_app, Hg, Hf.
Qed.

Lemma main_no_links_witness :
  exists evs,
    main (Sample.page ["http://a.example/index.html"; "https://consumereports.org/x.pdf"])
      Sample.w0 = (Returned tt, extend Sample.w0 evs) /\
    evs = EInput "Enter the URL to scrape PDF links from: "
            :: ELaunch chrome_options
            :: scrape_events "http://a.example/"
                 (present_hrefs (map Some ["http://a.example/index.html";
                                           "https://consumereports.org/x.pdf"]))
            ++ [EQuit; EPrint LNoLinks] /\
    gets_of evs = [] /\
    file_events_of evs = [].
Proof.
  apply (main_no_links
           (Sample.page ["http://a.example/index.html"; "https://consumereports.org/x.pdf"]));
    reflexivity.
Defined.

(** X15.  [main] does not catch what the scraper raises: when the
    navigation fails, or the wait for the anchors times out, the
    exception leaves [main] after the browser is quit; nothing is
    downloaded and nothing more is printed. *)
Theorem main_scraper_failure env w url e :
  console_input env = Returned url ->
  chrome env = None ->
  (driver_get env url = Some e \/
   (driver_get env url = None /\ wait_until env = Some e)) ->
  exists steps,
    main env w =
      (Raised e,
       extend w (EInput "Enter the URL to scrape PDF links from: "
                   :: ELaunch chrome_options :: steps ++ [EQuit])) /\
    (steps = [ENavigate url] \/ steps = [ENavigate url; EWait 10]).
Proof.
  intros Hinput Hchrome Hfail. unfold main. run. rewrite Hinput. run.
  unfold scrape_pdf_links. run. rewrite Hchrome. run.
  unfold try_finally, scrape_body, quit. run.
  destruct Hfail as [Hnav|[Hnav Hwait]]; rewrite Hnav; run.
  - rewrite ?emit_run, !extend_extend. exists [ENavigate url]. split; [done | by left].
  - rewrite Hwait. run. rewrite ?emit_run, !extend_extend.
    exists [ENavigate url; EWait 10]. split; [done | by right].
Qed.

Lemma main_scraper_failure_witness :
  exists steps,
    main (Sample.env (Sample.scripted [200]) None (Some (TimeoutException "no anchor")))
      Sample.w0 =
      (Raised (TimeoutException "no anchor"),
       extend Sample.w0 (EInput "Enter the URL to scrape PDF links from: "
                           :: ELaunch chrome_options :: steps ++ [EQuit])) /\
    (steps = [ENavigate "http://a.example/"]
     \/ steps = [ENavigate "http://a.example/"; EWait 10]).
Proof.
  apply (main_scraper_failure
           (Sample.env (Sample.scripted [200]) None (Some (TimeoutException "no anchor"))));
    [reflexivity | reflexivity | right; split; reflexivity].
Defined.



